(** * EasyBuild repository tools: a shallow embedding of
      [easybuild/tools/repository.py]

    The module keeps, per built package and version, a copy of the easyconfig
    file followed by a build statistics block, in one of three back ends: a
    plain directory tree ([FileRepository]), a git clone ([GitRepository])
    and a subversion working copy ([SvnRepository]).

    The Python methods mutate the repository object and the outside world
    (file system, log, version-control clients).  They are embedded as
    computations in a state-and-exception monad over an explicit [State];
    a raised exception keeps the state reached so far, as in Python. *)

From Stdlib Require Import Ascii.
From stdpp Require Import base gmap strings list pretty.

(** ** Python string primitives used by the module *)

Module Py.

(** [s.startswith('/')] *)
Definition startswith_slash (s : string) : bool :=
  match s with
  | String "/"%char _ => true
  | _ => false
  end.

(** [s.endswith('/')] *)
Fixpoint endswith_slash (s : string) : bool :=
  match s with
  | "" => false
  | String c "" => bool_decide (c = "/"%char)
  | String _ r => endswith_slash r
  end.

(** One round of the loop of [posixpath.join]. *)
Definition join2 (path b : string) : string :=
  if startswith_slash b then b
  else if bool_decide (path = "") || endswith_slash path then path +:+ b
  else path +:+ "/" +:+ b.

(** [os.path.join(a, *p)] *)
Definition path_join (a : string) (p : list string) : string :=
  foldl join2 a p.

(** [s.split(sep)] for a one-character separator: the fields between the
    separators, empty fields included. *)
Fixpoint split_go (sep : ascii) (cur : string) (s : string) : list string :=
  match s with
  | "" => [String.rev cur]
  | String c r =>
      if bool_decide (c = sep) then String.rev cur :: split_go sep "" r
      else split_go sep (String c cur) r
  end.
Definition split (sep : ascii) (s : string) : list string := split_go sep "" s.

(** [s.split()]: the whitespace-delimited words of [s]. *)
Definition split_ws (s : string) : list string := String.words s.

(** [s.lstrip(c)], [s.rstrip(c)] and [s.strip(c)] for a one-character set. *)
Fixpoint lstrip (c : ascii) (s : string) : string :=
  match s with
  | String a r => if bool_decide (a = c) then lstrip c r else s
  | "" => ""
  end.
Definition rstrip (c : ascii) (s : string) : string :=
  String.rev (lstrip c (String.rev s)).
Definition strip (c : ascii) (s : string) : string := rstrip c (lstrip c s).

(** ["...%s..." % (a, b, ...)] restricted to [%s] directives: each [%s]
    takes the next argument; a missing argument leaves the directive. *)
Fixpoint fmt (f : string) (args : list string) : string :=
  match f with
  | String "%"%char (String "s"%char r) =>
      match args with
      | a :: args' => a +:+ fmt r args'
      | [] => "%s" +:+ fmt r []
      end
  | String c r => String c (fmt r args)
  | "" => ""
  end.

(** The components of a path: the non-empty fields between slashes.  Two
    path strings with the same components name the same file-system
    object (relative paths are read from the root directory; [.] and [..]
    are not resolved). *)
Definition components (p : string) : list string :=
  filter (λ c, c ≠ "") (split "/"%char p).

End Py.

(** ** Exceptions and results *)

(** The exception classes the module raises, catches or lets through. *)
Inductive exn_class :=
  | EasyBuildError | IOError | OSError | NameError | UnboundLocalError
  | AttributeError | IndexError | GitCommandError | ClientError.

Global Instance exn_class_eq_dec : EqDecision exn_class.
Proof. solve_decision. Defined.

Record exn := Exn { exn_cls : exn_class; exn_msg : string }.

(** [isinstance(e, c)]; [UnboundLocalError] derives from [NameError]. *)
Definition isinstance (e : exn) (c : exn_class) : bool :=
  bool_decide (exn_cls e = c)
  || (bool_decide (exn_cls e = UnboundLocalError) && bool_decide (c = NameError)).

Inductive result (A : Type) :=
  | Ret (a : A)
  | Raise (e : exn).
Global Arguments Ret {A} a.
Global Arguments Raise {A} e.

Definition returns {A} (r : result A) : bool :=
  match r with Ret _ => true | Raise _ => false end.

(** ** The file system *)

(** Directories and regular files, keyed by path components.  The root
    (no component) is always a directory.  These are the directories and
    files that the module works on; what a version-control client writes
    for itself ([.git], [.svn]) is left out. *)
Record FS := mkFS {
  dirs : gset (list string);
  files : gmap (list string) string
}.

Module Os.
Definition isdir_k (f : FS) (k : list string) : bool :=
  bool_decide (k = []) || bool_decide (k ∈ dirs f).

(** [os.path.isdir(p)]; the empty path names nothing. *)
Definition isdir (f : FS) (p : string) : bool :=
  negb (bool_decide (p = "")) && isdir_k f (Py.components p).

(** [os.path.isfile(p)] *)
Definition isfile (f : FS) (p : string) : bool :=
  bool_decide (is_Some (files f !! Py.components p)).

(** The non-empty prefixes of a component list, shortest first. *)
Fixpoint ancestors (k : list string) : list (list string) :=
  match k with
  | [] => []
  | c :: r => [c] :: ((c ::.) <$> ancestors r)
  end.

(** A regular file lies on the way to [k]. *)
Definition blocked (f : FS) (k : list string) : bool :=
  existsb (λ a, bool_decide (is_Some (files f !! a))) (ancestors k).

Definition add_dirs (f : FS) (k : list string) : FS :=
  mkFS (list_to_set (ancestors k) ∪ dirs f) (files f).

(** [os.makedirs(p)]: creates [p] and the missing directories above it;
    [OSError] when [p] is empty, exists already, or a regular file is in
    the way. *)
Definition makedirs (f : FS) (p : string) : FS * result unit :=
  let k := Py.components p in
  if bool_decide (p = "") || isdir_k f k || blocked f k
  then (f, Raise (Exn OSError p))
  else (add_dirs f k, Ret ()).

Definition parent (k : list string) : list string := removelast k.

(** [open(p, 'w')]: creates or truncates the file; [IOError] when [p] is a
    directory or its parent is not one. *)
Definition open_w (f : FS) (p : string) : FS * result unit :=
  let k := Py.components p in
  if isdir_k f k || negb (isdir_k f (parent k)) || bool_decide (p = "")
  then (f, Raise (Exn IOError p))
  else (mkFS (dirs f) (<[k := ""]> (files f)), Ret ()).

(** Everything written to the handle of [p] reaches the file when the
    handle is closed or reclaimed. *)
Definition flush (f : FS) (p : string) (buf : string) : FS :=
  mkFS (dirs f) (<[Py.components p := buf]> (files f)).

(** [open(p).read()], what [for line in open(p)] yields in all. *)
Definition read (f : FS) (p : string) : result string :=
  match files f !! Py.components p with
  | Some c => Ret c
  | None => Raise (Exn IOError p)
  end.

(** [shutil.rmtree(p)]: removes the directory [p] with all below it;
    [OSError] when [p] is not a directory. *)
Definition rmtree (f : FS) (p : string) : FS * result unit :=
  let k := Py.components p in
  if isdir f p && negb (bool_decide (k = []))
  then (mkFS (filter (λ d, ¬ k `prefix_of` d) (dirs f))
             (filter (λ kv, ¬ k `prefix_of` kv.1) (files f)), Ret ())
  else (f, Raise (Exn OSError p)).

(** [tempfile.mkdtemp(prefix=pre)] with [dir] the value of
    [tempfile.gettempdir()]: the library draws names and calls
    [os.mkdir(os.path.join(dir, pre + name))] until a name is free; any
    failure of [os.mkdir] other than an existing path is raised.  The
    candidates stand for the random names the library draws. *)
Fixpoint mkdtemp (f : FS) (dir pre : string) (cands : list string)
  : FS * list string * result string :=
  match cands with
  | [] => (f, [], Raise (Exn IOError "No usable temporary directory name found"))
  | c :: rest =>
      let p := Py.join2 dir (pre +:+ c) in
      let k := Py.components p in
      if isdir_k f k || bool_decide (is_Some (files f !! k))
      then mkdtemp f dir pre rest
      else if negb (isdir_k f (parent k))
      then (f, rest, Raise (Exn OSError p))
      else (mkFS ({[k]} ∪ dirs f) (files f), rest, Ret p)
  end.
End Os.

(** ** The repository object and the world around it *)

(** A version-control client held in [self.client]: a [git.Git] bound to a
    working directory, or a [pysvn.Client]. *)
Inductive client :=
  | GitClient (cwd : option string)
  | SvnClient.

(** Calls made on the version-control clients, in order. *)
Inductive event :=
  | GitClone (cwd : option string) (url : string)
  | GitPull (cwd : option string)
  | GitAdd (cwd : option string) (path : string)
  | GitStatus (cwd : option string)
  | GitCommit (cwd : option string) (arg : string)
  | GitPush (cwd : option string)
  | SvnIsUrl (url : string)
  | SvnInfo2 (url : string)
  | SvnUpdate (path : string)
  | SvnCheckout (url path : string)
  | SvnStatus (path : string)
  | SvnAdd (path : string)
  | SvnCheckin (path msg : string).

Global Instance event_eq_dec : EqDecision event.
Proof. solve_decision. Defined.

Inductive level := DEBUG | INFO | WARNING | ERROR | EXCEPTION.

(** The attributes of the repository object ([self.repo], [self.subdir],
    [self.wc], [self.client]) and the mutable world. *)
Record State := mkState {
  self_repo : string;
  self_subdir : string;
  self_wc : option string;
  self_client : option client;
  fs : FS;
  tmp_names : list string;
  svn_versioned : gset (list string);
  trace : list event;
  log : list (level * string)
}.

Definition set_repo (v : string) (s : State) : State :=
  mkState v (self_subdir s) (self_wc s) (self_client s) (fs s) (tmp_names s)
          (svn_versioned s) (trace s) (log s).
Definition set_subdir (v : string) (s : State) : State :=
  mkState (self_repo s) v (self_wc s) (self_client s) (fs s) (tmp_names s)
          (svn_versioned s) (trace s) (log s).
Definition set_wc (v : option string) (s : State) : State :=
  mkState (self_repo s) (self_subdir s) v (self_client s) (fs s) (tmp_names s)
          (svn_versioned s) (trace s) (log s).
Definition set_client (v : option client) (s : State) : State :=
  mkState (self_repo s) (self_subdir s) (self_wc s) v (fs s) (tmp_names s)
          (svn_versioned s) (trace s) (log s).
Definition set_fs (v : FS) (s : State) : State :=
  mkState (self_repo s) (self_subdir s) (self_wc s) (self_client s) v (tmp_names s)
          (svn_versioned s) (trace s) (log s).
Definition set_tmp_names (v : list string) (s : State) : State :=
  mkState (self_repo s) (self_subdir s) (self_wc s) (self_client s) (fs s) v
          (svn_versioned s) (trace s) (log s).
Definition set_svn_versioned (v : gset (list string)) (s : State) : State :=
  mkState (self_repo s) (self_subdir s) (self_wc s) (self_client s) (fs s) (tmp_names s)
          v (trace s) (log s).
Definition add_event (e : event) (s : State) : State :=
  mkState (self_repo s) (self_subdir s) (self_wc s) (self_client s) (fs s) (tmp_names s)
          (svn_versioned s) (trace s ++ [e]) (log s).
Definition add_log (l : level) (m : string) (s : State) : State :=
  mkState (self_repo s) (self_subdir s) (self_wc s) (self_client s) (fs s) (tmp_names s)
          (svn_versioned s) (trace s) (log s ++ [(l, m)]).

(** ** The monad of methods *)

Definition M (A : Type) : Type := State → State * result A.

Definition ret {A} (a : A) : M A := λ s, (s, Ret a).
Definition raise {A} (e : exn) : M A := λ s, (s, Raise e).
Definition bind {A B} (m : M A) (k : A → M B) : M B :=
  λ s, match m s with
       | (s', Ret a) => k a s'
       | (s', Raise e) => (s', Raise e)
       end.

Global Instance M_ret : MRet M := @ret.
Global Instance M_bind : MBind M := λ A B k m, bind m k.

Definition get : M State := λ s, (s, Ret s).
Definition modify (f : State → State) : M unit := λ s, (f s, Ret ()).
Definition lift {A} (r : result A) : M A := λ s, (s, r).

(** [try: body  except (c1, c2, ...), err: handler].  The names in the
    [except] clause are looked up only once [body] has raised; when one of
    them is unbound ([bound = false]) that lookup raises [NameError] in place
    of the exception under way. *)
Definition try_except {A} (body : M A) (bound : bool) (classes : list exn_class)
    (handler : exn → M A) : M A :=
  λ s, match body s with
       | (s', Ret a) => (s', Ret a)
       | (s', Raise e) =>
           if negb bound then (s', Raise (Exn NameError "name is not defined"))
           else if existsb (isinstance e) classes then handler e s'
           else (s', Raise e)
       end.

(** [str(err)] *)
Definition str_exn (e : exn) : string := exn_msg e.

(** The newline character of the Python literals. *)
Definition nl : string := String "010"%char "".

(** The double quote character. *)
Definition dq : string := String "034"%char "".

(** [str(x)] of an optional string: [None] prints as its name. *)
Definition str_opt (o : option string) : string := default "None" o.

(** One round of the loop of [posixpath.join] when the path so far may be
    [None]: a part that starts with a slash replaces the path, any other part
    calls [path.endswith]. *)
Definition join2_opt (acc : result (option string)) (b : string)
    : result (option string) :=
  match acc with
  | Raise e => Raise e
  | Ret path =>
      if Py.startswith_slash b then Ret (Some b)
      else match path with
           | Some q => Ret (Some (Py.join2 q b))
           | None => Raise (Exn AttributeError
                              "'NoneType' object has no attribute 'endswith'")
           end
  end.

(** [os.path.join(a, *p)] with at least one part after [a]. *)
Definition path_join_opt (a : option string) (p : list string) : result string :=
  match foldl join2_opt (Ret a) p with
  | Ret (Some q) => Ret q
  | Ret None => Raise (Exn AttributeError "'NoneType' object has no attribute 'endswith'")
  | Raise e => Raise e
  end.

(** ** What the module takes from outside *)

(** The logger [get_log('repo')] of [easybuild.tools.build_log] is not part
    of these sources: whether its [error] and [exception] methods raise
    [EasyBuildError] after logging is a parameter.  [debug], [info] and
    [warning] only log. *)
Record Logger := mkLogger {
  error_raises : bool;
  exception_raises : bool
}.

(** The environment: constants of the session, which optional imports
    succeeded, and the outcome of each call on a version-control client.
    A [git.Git] is addressed by its working directory. *)
Record Env := mkEnv {
  VERBOSE_VERSION : string;
  strftime : string;      (* time.strftime("%Y-%m-%d_%H-%M-%S") *)
  gethostname : string;   (* socket.gethostname() *)
  getuser : string;       (* getpass.getuser() *)
  getcwd : string;        (* os.getcwd() *)
  gettempdir : string;    (* tempfile.gettempdir() *)
  git_bound : bool;       (* [import git; from git import GitCommandError] succeeded *)
  pysvn_bound : bool;     (* [import pysvn; from pysvn import ClientError] succeeded *)
  git_Git : option string → result unit;
  (* output of [git clone] and the name of the directory it created *)
  git_clone : option string → string → result (string * string);
  git_pull : option string → result string;
  git_add : option string → string → result unit;
  git_status : option string → result string;
  git_commit : option string → string → result unit;
  git_push : option string → result string;
  svn_Client : result unit;
  svn_is_url : string → result bool;
  svn_info2 : string → result unit;
  (* revision numbers of the results of [update] and [checkout] *)
  svn_update : string → result (list Z);
  svn_checkout : string → string → result Z;
  svn_checkin : string → string → result unit
}.

(** The three repository classes. *)
Inductive backend := File | Git | Svn.

Section Repository.

Variable L : Logger.
Variable E : Env.

(** A build statistics record (a dictionary), and [stats_to_str] of
    [easybuild.framework.easyconfig], which prints one; its definition is
    not part of these sources. *)
Variable Stats : Type.
Variable stats_to_str : Stats → string.

(** [EasyConfig(path, validate=False)['buildstats']] as a function of the
    text of the file at [path]; the class is not part of these sources. *)
Variable easyconfig_buildstats : string → result (list Stats).

(** *** Logging *)

Definition log_debug (m : string) : M unit := modify (add_log DEBUG m).
Definition log_info (m : string) : M unit := modify (add_log INFO m).
Definition log_warning (m : string) : M unit := modify (add_log WARNING m).
Definition log_error (m : string) : M unit :=
  modify (add_log ERROR m) ;;
  if error_raises L then raise (Exn EasyBuildError m) else ret ().
Definition log_exception (m : string) : M unit :=
  modify (add_log EXCEPTION m) ;;
  if exception_raises L then raise (Exn EasyBuildError m) else ret ().

(** *** File-system calls on the state *)

Definition os_path_isdir (p : string) : M bool := λ s, (s, Ret (Os.isdir (fs s) p)).
Definition os_path_isfile (p : string) : M bool := λ s, (s, Ret (Os.isfile (fs s) p)).
Definition os_makedirs (p : string) : M unit :=
  λ s, let '(f, r) := Os.makedirs (fs s) p in (set_fs f s, r).
Definition open_w (p : string) : M unit :=
  λ s, let '(f, r) := Os.open_w (fs s) p in (set_fs f s, r).
Definition flush (p buf : string) : M unit :=
  modify (λ s, set_fs (Os.flush (fs s) p buf) s).
Definition read (p : string) : M string := λ s, (s, Os.read (fs s) p).
Definition tempfile_mkdtemp (pre : string) : M string :=
  λ s, let '(f, rest, r) := Os.mkdtemp (fs s) (gettempdir E) pre (tmp_names s) in
       (set_tmp_names rest (set_fs f s), r).

(** Modelled from the spec: [rmtree2] of [easybuild.tools.filetools] is not
    part of these sources.  It removes the directory tree at the path
    (cleanup "recursively removes the temporary working directory") and
    reports a removal that failed through [log.error]. *)
Definition rmtree2 (p : option string) : M unit :=
  λ s, match p with
       | Some q =>
           match Os.rmtree (fs s) q with
           | (f, Ret _) =>
               log_info (Py.fmt "Path %s successfully removed." [q]) (set_fs f s)
           | (_, Raise _) =>
               log_error (Py.fmt "Failed to remove path %s with shutil.rmtree" [q]) s
           end
       | None => log_error "Failed to remove path None with shutil.rmtree" s
       end.

(** *** [class Repository] *)

(** [Repository.__init__]: [setup_repo] and [create_working_copy] are the
    methods of the class that is instantiated. *)
Definition Repository_init (setup_repo create_working_copy : M unit)
    (repo_path subdir : string) : M unit :=
  modify (set_subdir subdir) ;;
  modify (set_repo repo_path) ;;
  modify (set_wc None) ;;
  setup_repo ;;
  create_working_copy.

(** *** [class FileRepository] *)

Definition FileRepository_setup_repo : M unit :=
  s ← get;
  d ← os_path_isdir (self_repo s);
  (if negb d then os_makedirs (self_repo s) else ret ()) ;;
  let full_path := Py.path_join (self_repo s) [self_subdir s] in
  d' ← os_path_isdir full_path;
  if negb d' then os_makedirs full_path else ret ().

Definition FileRepository_create_working_copy : M unit :=
  modify (λ s, set_wc (Some (self_repo s)) s).

Definition statsprefix (previous : bool) : string :=
  if negb previous then nl +:+ "# Build statistics" +:+ nl +:+ "buildstats = ["
  else nl +:+ "buildstats.append(".
Definition statssuffix (previous : bool) : string :=
  if negb previous then "]" +:+ nl else ")" +:+ nl.

(** The first line of a record file. *)
Definition header : string :=
  Py.fmt ("# Built with %s on %s" +:+ nl) [VERBOSE_VERSION E; strftime E].

(** The body of the [try] block of [add_easyconfig].  What was written to
    [dest_file] before an [IOError] reaches the file once the handle is
    given up. *)
Definition write_record (cfg dest : string) (stats : Stats) (previous : bool)
    : M unit :=
  open_w dest ;;
  let buf := header in
  try_except (read cfg) true [IOError]
             (λ err, flush dest buf ;; raise err) ≫= λ lines,
  let buf := buf +:+ lines in
  let buf := buf +:+ statsprefix previous +:+ stats_to_str stats
                 +:+ statssuffix previous in
  flush dest buf.

Definition FileRepository_add_easyconfig (cfg name version : string)
    (stats : Stats) (previous : bool) : M string :=
  s ← get;
  full_path ← lift (path_join_opt (self_wc s) [self_subdir s; name]);
  d ← os_path_isdir full_path;
  (if negb d then os_makedirs full_path else ret ()) ;;
  let dest := Py.path_join full_path [Py.fmt "%s.eb" [version]] in
  try_except (write_record cfg dest stats previous) true [IOError]
    (λ err, log_exception
              (Py.fmt "Copying file %s to %s (wc: %s) failed (%s)"
                      [cfg; dest; str_opt (self_wc s); str_exn err])) ;;
  ret dest.

Definition FileRepository_get_buildstats (name version : string)
    : M (list Stats) :=
  s ← get;
  full_path ← lift (path_join_opt (self_wc s) [self_subdir s; name]);
  d ← os_path_isdir full_path;
  if negb d then
    log_debug (Py.fmt "module (%s) has not been found in the repo" [name]) ;;
    ret []
  else
    let dest := Py.path_join full_path [Py.fmt "%s.eb" [version]] in
    f ← os_path_isfile dest;
    if negb f then
      log_debug (Py.fmt "version (%s) of module (%s) has not been found in the repo"
                        [version; name]) ;;
      ret []
    else
      text ← read dest;
      lift (easyconfig_buildstats text).

(** *** Calls on a [git.Git] client *)

(** [git.Git(wd)]; the name [git] is unbound when the import failed. *)
Definition new_Git (wd : option string) : M client :=
  if git_bound E then lift (git_Git E wd) ;; ret (GitClient wd)
  else raise (Exn NameError "name 'git' is not defined").

(** The working directory of the client a git method is called on;
    [None] has no such method. *)
Definition git_cwd (c : option client) : M (option string) :=
  match c with
  | Some (GitClient wd) => ret wd
  | _ => raise (Exn AttributeError "object has no such attribute")
  end.

(** [client.clone(url)]: a clone that succeeds creates its directory under
    the working directory of the client. *)
Definition git_call_clone (wd : option string) (url : string) : M string :=
  modify (add_event (GitClone wd url)) ;;
  match git_clone E wd url with
  | Ret (out, d) =>
      modify (λ s, set_fs (Os.add_dirs (fs s)
                (Py.components (Py.join2 (default (getcwd E) wd) d))) s) ;;
      ret out
  | Raise e => raise e
  end.

(** [client.pull()], [client.add(path)], [client.status()],
    [client.commit(arg)] and [client.push()]: the call is recorded in the
    trace and its outcome is the answer of the environment.  What git
    writes itself (its bookkeeping below [.git], the files that a pull
    brings into the working copy) is not part of [fs], which holds the
    directories and files that the module creates, reads and removes. *)
Definition git_call_pull (c : option client) : M string :=
  wd ← git_cwd c; modify (add_event (GitPull wd)) ;; lift (git_pull E wd).
Definition git_call_add (c : option client) (path : string) : M unit :=
  wd ← git_cwd c; modify (add_event (GitAdd wd path)) ;; lift (git_add E wd path).
Definition git_call_status (c : option client) : M string :=
  wd ← git_cwd c; modify (add_event (GitStatus wd)) ;; lift (git_status E wd).
Definition git_call_commit (c : option client) (arg : string) : M unit :=
  wd ← git_cwd c; modify (add_event (GitCommit wd arg)) ;; lift (git_commit E wd arg).
Definition git_call_push (c : option client) : M string :=
  wd ← git_cwd c; modify (add_event (GitPush wd)) ;; lift (git_push E wd).

(** *** [class GitRepository] *)

Definition GitRepository_init (setup_repo create_working_copy : M unit)
    (repo_path subdir : string) : M unit :=
  modify (set_client None) ;;
  Repository_init setup_repo create_working_copy repo_path subdir.

Definition GitRepository_setup_repo : M unit :=
  try_except
    (if git_bound E then ret ()
     else raise (Exn NameError "name 'git' is not defined"))
    true [NameError]
    (λ err, log_exception
              (Py.fmt "It seems like GitPython is not available: %s" [str_exn err])) ;;
  wc ← tempfile_mkdtemp "git-wc-";
  modify (set_wc (Some wc)).

(** [out.split("\n")[0].split()[-1].strip(".").strip("'")] *)
Definition reponame_of (out : string) : result string :=
  match last (Py.split_ws (hd "" (Py.split "010"%char out))) with
  | Some w => Ret (Py.strip "'"%char (Py.strip "."%char w))
  | None => Raise (Exn IndexError "list index out of range")
  end.

Definition GitRepository_create_working_copy : M unit :=
  s ← get;
  reponame ←
    try_except
      (client ← new_Git (self_wc s);
       out ← git_call_clone (self_wc s) (self_repo s);
       reponame ← lift (reponame_of out);
       log_debug (Py.fmt "rep name is %s" [reponame]) ;;
       ret reponame)
      (git_bound E) [GitCommandError]
      (λ err,
         log_warning
           (Py.fmt "Git local repo initialization failed, it might already exist: %s"
                   [str_exn err]) ;;
         ret "UNKNOWN");
  try_except
    (wc ← lift (path_join_opt (self_wc s) [reponame]);
     modify (set_wc (Some wc)) ;;
     log_debug (Py.fmt "connectiong to git repo in %s" [wc]) ;;
     c ← new_Git (Some wc);
     modify (set_client (Some c)))
    (git_bound E) [GitCommandError; OSError]
    (λ err,
       s1 ← get;
       log_error (Py.fmt "Could not create a local git repo in wc %s: %s"
                         [str_opt (self_wc s1); str_exn err])) ;;
  try_except
    (s2 ← get;
     res ← git_call_pull (self_client s2);
     log_debug (Py.fmt "pulled succesfully to %s in %s" [res; str_opt (self_wc s2)]))
    (git_bound E) [GitCommandError; OSError]
    (λ err,
       s2 ← get;
       log_exception (Py.fmt "pull in working copy %s went wrong: %s"
                             [str_opt (self_wc s2); str_exn err])).

(** The method has no [return]: its value is [None]. *)
Definition GitRepository_add_easyconfig (cfg name version : string)
    (stats : Stats) (append : bool) : M (option string) :=
  dest ← FileRepository_add_easyconfig cfg name version stats append;
  (if negb (bool_decide (dest = "")) then
     try_except
       (s ← get; git_call_add (self_client s) dest)
       (git_bound E) [GitCommandError]
       (λ err, log_warning (Py.fmt "adding %s to git failed: %s" [dest; str_exn err]))
   else ret ()) ;;
  ret None.

(** The commit message shared by both version-control classes. *)
Definition completemsg (msg : option string) : string :=
  Py.fmt ("EasyBuild-commit from %s (time: %s, user: %s) " +:+ nl +:+ "%s")
         [gethostname E; strftime E; getuser E; str_opt msg].

Definition GitRepository_commit (msg : option string) : M unit :=
  log_debug (Py.fmt "committing in git: %s" [str_opt msg]) ;;
  s ← get;
  st ← git_call_status (self_client s);
  log_debug (Py.fmt "git status: %s" [st]) ;;
  try_except
    (git_call_commit (self_client s) (Py.fmt ("-am " +:+ dq +:+ "%s" +:+ dq) [completemsg msg]) ;;
     log_debug "succesfull commit")
    (git_bound E) [GitCommandError]
    (λ err,
       log_warning
         (Py.fmt ("Commit from working copy %s (msg: %s) failed, empty commit?" +:+ nl +:+ "%s")
                 [str_opt (self_wc s); str_opt msg; str_exn err])) ;;
  try_except
    (info ← git_call_push (self_client s);
     log_debug (Py.fmt "push info: %s " [info]))
    (git_bound E) [GitCommandError]
    (λ err,
       log_warning
         (Py.fmt "Push from working copy %s to remote %s (msg: %s) failed: %s"
                 [str_opt (self_wc s); self_repo s; str_opt msg; str_exn err])).

Definition GitRepository_cleanup : M unit :=
  s ← get;
  try_except (rmtree2 (self_wc s)) true [IOError]
    (λ err, log_exception (Py.fmt "Can't remove working copy %s: %s"
                                  [str_opt (self_wc s); str_exn err])).

(** *** Calls on a [pysvn.Client] *)

(** The client a pysvn method is called on; [None] has no such method. *)
Definition svn_client (c : option client) : M unit :=
  match c with
  | Some SvnClient => ret ()
  | _ => raise (Exn AttributeError "object has no such attribute")
  end.

(** The methods of the client: the call is recorded in the trace and its
    outcome is the answer of the environment.  What subversion writes
    itself (its bookkeeping below [.svn], the files that an update or a
    checkout brings into the working copy) is not part of [fs]. *)
Definition svn_call_is_url (c : option client) (url : string) : M bool :=
  svn_client c ;; modify (add_event (SvnIsUrl url)) ;; lift (svn_is_url E url).
Definition svn_call_info2 (c : option client) (url : string) : M unit :=
  svn_client c ;; modify (add_event (SvnInfo2 url)) ;; lift (svn_info2 E url).
Definition svn_call_update (c : option client) (path : string) : M (list Z) :=
  svn_client c ;; modify (add_event (SvnUpdate path)) ;; lift (svn_update E path).
Definition svn_call_checkout (c : option client) (url path : string) : M Z :=
  svn_client c ;; modify (add_event (SvnCheckout url path)) ;;
  lift (svn_checkout E url path).
Definition svn_call_checkin (c : option client) (path msg : string) : M unit :=
  svn_client c ;; modify (add_event (SvnCheckin path msg)) ;;
  lift (svn_checkin E path msg).

(** [client.status(path)]: one status per path, [is_versioned] when the
    path is under version control. *)
Definition svn_call_status (c : option client) (path : string) : M (list bool) :=
  svn_client c ;; modify (add_event (SvnStatus path)) ;;
  s ← get;
  ret [bool_decide (Py.components path ∈ svn_versioned s)].

(** [client.add(path)]: schedules the path for addition; a path already
    under version control is refused with [ClientError]. *)
Definition svn_call_add (c : option client) (path : string) : M unit :=
  svn_client c ;; modify (add_event (SvnAdd path)) ;;
  s ← get;
  if bool_decide (Py.components path ∈ svn_versioned s)
  then raise (Exn ClientError (Py.fmt "'%s' is already under version control" [path]))
  else modify (set_svn_versioned ({[Py.components path]} ∪ svn_versioned s)).

(** *** [class SvnRepository] *)

Definition SvnRepository_init (setup_repo create_working_copy : M unit)
    (repo_path subdir : string) : M unit :=
  modify (set_client None) ;;
  Repository_init setup_repo create_working_copy repo_path subdir.

(** [str] of a list of revisions. *)
Definition str_revs (res : list Z) : string :=
  "[" +:+ foldr (λ n acc, pretty n +:+ ", " +:+ acc) "]" res.

Definition SvnRepository_setup_repo : M unit :=
  modify (λ s, set_repo (Py.path_join (self_repo s) [self_subdir s]) s) ;;
  try_except
    (if pysvn_bound E then raise (Exn ClientError "")
     else raise (Exn NameError "name 'pysvn' is not defined"))
    true [NameError]
    (λ err,
       log_exception
         (Py.fmt "pysvn not available (%s). Make sure it is installed " [str_exn err]
          +:+ "properly. Run 'python -c " +:+ dq +:+ "import pysvn" +:+ dq
          +:+ "' to test.")) ;;
  s ← get;
  log_debug (Py.fmt "Try to connect to repository %s" [self_repo s]) ;;
  try_except
    (if pysvn_bound E then
       lift (svn_Client E) ;;
       modify (set_client (Some SvnClient))
     else raise (Exn NameError "name 'pysvn' is not defined"))
    (pysvn_bound E) [ClientError]
    (λ err, log_exception "Svn Client initialization failed.") ;;
  try_except
    (s1 ← get;
     u ← svn_call_is_url (self_client s1) (self_repo s1);
     if negb u then
       log_error (Py.fmt "Provided repository %s is not a valid svn url" [self_repo s1])
     else ret ())
    (pysvn_bound E) [ClientError]
    (λ err,
       s1 ← get;
       log_exception (Py.fmt "Can't connect to svn repository %s" [self_repo s1])).

(** [res] is unbound when [update] raised and the handler came back. *)
Definition SvnRepository_create_working_copy : M unit :=
  wc ← tempfile_mkdtemp "svn-wc-";
  modify (set_wc (Some wc)) ;;
  s ← get;
  try_except
    (svn_call_info2 (self_client s) (self_repo s))
    (pysvn_bound E) [ClientError]
    (λ err, log_exception (Py.fmt "Getting info from %s failed." [wc])) ;;
  res ←
    try_except
      (res ← svn_call_update (self_client s) wc;
       log_debug (Py.fmt "Updated to revision %s in %s" [str_revs res; wc]) ;;
       ret (Some res))
      (pysvn_bound E) [ClientError]
      (λ err,
         log_exception (Py.fmt "Update in wc %s went wrong" [wc]) ;;
         ret None);
  match res with
  | None =>
      raise (Exn UnboundLocalError
                 "local variable 'res' referenced before assignment")
  | Some res =>
      (if bool_decide (length res = 0) then
         log_error (Py.fmt "Update returned empy list (working copy: %s)" [wc])
       else ret ()) ;;
      match res with
      | [] => raise (Exn IndexError "list index out of range")
      | r0 :: _ =>
          if bool_decide (r0 = (-1)%Z) then
            try_except
              (r ← svn_call_checkout (self_client s) (self_repo s) wc;
               log_debug (Py.fmt "Checked out revision %s in %s" [pretty r; wc]))
              (pysvn_bound E) [ClientError]
              (λ err,
                 log_exception
                   (Py.fmt "Checkout of path / in working copy %s went wrong: %s"
                           [wc; str_exn err]))
          else ret ()
      end
  end.

(** The method has no [return]: its value is [None]. *)
Definition SvnRepository_add_easyconfig (cfg name version : string)
    (stats : Stats) (append : bool) : M (option string) :=
  dest ← FileRepository_add_easyconfig cfg name version stats append;
  log_debug (Py.fmt "destination = %s" [dest]) ;;
  (if negb (bool_decide (dest = "")) then
     s ← get;
     st ← svn_call_status (self_client s) dest;
     log_debug (Py.fmt "destination status: %s" [pretty (length st)]) ;;
     if bool_decide (is_Some (self_client s)) then
       st' ← svn_call_status (self_client s) dest;
       match st' with
       | [] => raise (Exn IndexError "list index out of range")
       | is_versioned :: _ =>
           if negb is_versioned then
             log_debug (Py.fmt "Going to add %s (working copy: %s, cwd %s)"
                               [dest; str_opt (self_wc s); getcwd E]) ;;
             svn_call_add (self_client s) dest
           else ret ()
       end
     else ret ()
   else ret ()) ;;
  ret None.

Definition SvnRepository_commit (msg : option string) : M unit :=
  s ← get;
  try_except
    (svn_call_checkin (self_client s) (str_opt (self_wc s)) (completemsg msg))
    (pysvn_bound E) [ClientError]
    (λ err,
       log_exception (Py.fmt "Commit from working copy %s (msg: %s) failed: %s"
                             [str_opt (self_wc s); str_opt msg; str_exn err])).

Definition SvnRepository_cleanup : M unit :=
  s ← get;
  try_except (rmtree2 (self_wc s)) true [OSError]
    (λ err, log_exception (Py.fmt "Can't remove working copy %s: %s"
                                  [str_opt (self_wc s); str_exn err])).

(** *** The three classes behind one interface *)

Definition setup_repo (b : backend) : M unit :=
  match b with
  | File => FileRepository_setup_repo
  | Git => GitRepository_setup_repo
  | Svn => SvnRepository_setup_repo
  end.

Definition create_working_copy (b : backend) : M unit :=
  match b with
  | File => FileRepository_create_working_copy
  | Git => GitRepository_create_working_copy
  | Svn => SvnRepository_create_working_copy
  end.

(** [FileRepository(repo_path, subdir)] and its like: the constructors. *)
Definition new (b : backend) (repo_path subdir : string) : M unit :=
  match b with
  | File => Repository_init (setup_repo File) (create_working_copy File) repo_path subdir
  | Git => GitRepository_init (setup_repo Git) (create_working_copy Git) repo_path subdir
  | Svn => SvnRepository_init (setup_repo Svn) (create_working_copy Svn) repo_path subdir
  end.

(** The value of [add_easyconfig]: a path, or [None]. *)
Definition add_easyconfig (b : backend) (cfg name version : string)
    (stats : Stats) (previous : bool) : M (option string) :=
  match b with
  | File => dest ← FileRepository_add_easyconfig cfg name version stats previous;
            ret (Some dest)
  | Git => GitRepository_add_easyconfig cfg name version stats previous
  | Svn => SvnRepository_add_easyconfig cfg name version stats previous
  end.

Definition commit (b : backend) (msg : option string) : M unit :=
  match b with
  | File => ret ()
  | Git => GitRepository_commit msg
  | Svn => SvnRepository_commit msg
  end.

Definition cleanup (b : backend) : M unit :=
  match b with
  | File => ret ()
  | Git => GitRepository_cleanup
  | Svn => SvnRepository_cleanup
  end.

(** Both version-control classes inherit [get_buildstats]. *)
Definition get_buildstats (b : backend) (name version : string) : M (list Stats) :=
  FileRepository_get_buildstats name version.

End Repository.

(** ** Notions for the statements about record files *)

Section Records.

Variable L : Logger.
Variable E : Env.
Variable Stats : Type.
Variable stats_to_str : Stats → string.

(** The directory of the package is there, or [os.makedirs] creates it. *)
Definition prepared (f : FS) (full_path : string) : FS * result unit :=
  if Os.isdir f full_path then (f, Ret ()) else Os.makedirs f full_path.

(** The text of a record file written in full: the header, the lines of the
    easyconfig file, the statistics block. *)
Definition record_text (text : string) (stats : Stats) (previous : bool) : string :=
  (header E +:+ text) +:+ statsprefix previous +:+ stats_to_str stats
    +:+ statssuffix previous.

(** The message of the [IOError] handler of [add_easyconfig]. *)
Definition copy_failed (cfg dest : string) (s : State) (err : exn) : string :=
  Py.fmt "Copying file %s to %s (wc: %s) failed (%s)"
         [cfg; dest; str_opt (self_wc s); str_exn err].

End Records.

(** ** A reader of record files *)

Module Reader.

(** [s] without the prefix [pre], when it starts with it. *)
Fixpoint strip_prefix (pre s : string) : option string :=
  match pre, s with
  | "", _ => Some s
  | String a pre', String b s' =>
      if bool_decide (a = b) then strip_prefix pre' s' else None
  | _, _ => None
  end.

(** The text of a line between [pre] and [suf], when it has that shape. *)
Definition between (pre suf line : string) : option string :=
  rest ← strip_prefix pre line;
  String.rev <$> strip_prefix (String.rev suf) (String.rev rest).

Definition entries (payload : string) : list string :=
  if bool_decide (payload = "") then [] else [payload].

(** The statements of the file in order: an assignment binds [buildstats]
    to a fresh list, an [append] extends the list bound so far and is a
    [NameError] while the name is unbound. *)
Fixpoint eval (lines : list string) (acc : option (list string))
  : result (option (list string)) :=
  match lines with
  | [] => Ret acc
  | l :: rest =>
      match between "buildstats = [" "]" l with
      | Some e => eval rest (Some (entries e))
      | None =>
          match between "buildstats.append(" ")" l with
          | Some e =>
              match acc with
              | Some a => eval rest (Some (a ++ entries e))
              | None => Raise (Exn NameError "name 'buildstats' is not defined")
              end
          | None => eval rest acc
          end
      end
  end.

(** Modelled from the spec: the reader of record files ([EasyConfig]) is
    not part of these sources.  "The reader [...] must evaluate/parse this
    file such that repeated append forms yield one ordered sequence equal
    to all entries ever written, in write order"; a file with no statistics
    has none.  An entry is the text of a statistics record printed on one
    line. *)
Definition buildstats (text : string) : result (list string) :=
  match eval (Py.split "010"%char text) None with
  | Ret (Some l) => Ret l
  | Ret None => Ret []
  | Raise e => Raise e
  end.

End Reader.

(** ** Concrete sessions *)

(** A fresh object in a world with file system [f]. *)
Definition fresh (f : FS) (names : list string) : State :=
  mkState "" "" None None f names ∅ [] [].

Definition strict : Logger := mkLogger true true.
Definition lenient : Logger := mkLogger false false.

(** Everything is installed and every client call succeeds; a first
    [update] finds nothing checked out. *)
Definition env_ok : Env :=
  mkEnv "EasyBuild 1.0" "2013-01-01_00-00-00" "node1" "alice" "/" "/tmp" true true
        (λ _, Ret ())
        (λ _ _, Ret ("Cloning into 'easybuild'...", "easybuild"))
        (λ _, Ret "Already up-to-date.")
        (λ _ _, Ret ())
        (λ _, Ret "nothing to commit")
        (λ _ _, Ret ())
        (λ _, Ret "Everything up-to-date")
        (Ret ()) (λ _, Ret true) (λ _, Ret ())
        (λ _, Ret [(-1)%Z]) (λ _ _, Ret 7%Z) (λ _ _, Ret ()).

(** The remote cannot be reached: clone, commit and push fail with
    [GitCommandError]; a pull finds nothing to do. *)
Definition env_offline : Env :=
  mkEnv "EasyBuild 1.0" "2013-01-01_00-00-00" "node1" "alice" "/" "/tmp" true true
        (λ _, Ret ())
        (λ _ _, Raise (Exn GitCommandError "could not resolve host"))
        (λ _, Ret "Already up-to-date.")
        (λ _ _, Ret ())
        (λ _, Ret "nothing to commit")
        (λ _ _, Raise (Exn GitCommandError "nothing to commit"))
        (λ _, Raise (Exn GitCommandError "could not resolve host"))
        (Ret ()) (λ _, Ret true) (λ _, Ret ())
        (λ _, Ret [4%Z]) (λ _ _, Ret 7%Z) (λ _ _, Ret ()).

(** A world with [/tmp], and an easyconfig file [/src/gcc.eb]. *)
Definition fs0 : FS :=
  mkFS {[ ["tmp"]; ["src"] ]} {[ ["src"; "gcc.eb"] := "name = 'gcc'" +:+ nl ]}.

(** A repository object bound to [/tmp/repo], before its first call. *)
Definition file_repo0 : State := set_repo "/tmp/repo" (fresh fs0 []).

(** An svn repository object for [http://svn.example.org/repo] with
    subdirectory [sub]. *)
Definition svn_repo0 : State :=
  set_subdir "sub" (set_repo "http://svn.example.org/repo" (fresh fs0 ["x1"])).

(** The state a computation leaves, and its outcome. *)
Definition state_of {A} (m : M A) (s : State) : State := (m s).1.
Definition outcome {A} (m : M A) (s : State) : result A := (m s).2.

(** The file repository at [/tmp/repo], as its constructor leaves it. *)
Definition file_repo1 : State :=
  state_of (new strict env_ok File "/tmp/repo" "") (fresh fs0 []).

(** The git repository cloned from [git@example.org:easybuild.git], as its
    constructor leaves it. *)
Definition git_repo1 : State :=
  state_of (new strict env_ok Git "git@example.org:easybuild.git" "") (fresh fs0 ["x1"]).

(** Records of gcc 4.8 in the file repository. *)
Definition add_gcc (stats : string) (previous : bool) (cfg : string) : M string :=
  FileRepository_add_easyconfig strict env_ok string id cfg "gcc" "4.8" stats previous.

(** The file repository after a first record of gcc 4.8. *)
Definition file_repo2 : State :=
  state_of (add_gcc "{'time': 120}" false "/src/gcc.eb") file_repo1.

(** A second record, written from the same easyconfig file. *)
Definition file_repo3 : State :=
  state_of (add_gcc "{'time': 90}" true "/src/gcc.eb") file_repo2.

(** The first record file is copied to [/src/gcc-4.8.eb], and a second
    record is written from the copy. *)
Definition file_repo2_copied : State :=
  set_fs (Os.flush (fs file_repo2) "/src/gcc-4.8.eb"
            (record_text env_ok string id ("name = 'gcc'" +:+ nl) "{'time': 120}" false))
         file_repo2.
Definition file_repo3_copied : State :=
  state_of (add_gcc "{'time': 90}" true "/src/gcc-4.8.eb") file_repo2_copied.

(** A git repository object for [git@example.org:easybuild.git], before
    its constructor runs [setup_repo]. *)
Definition git_repo0 : State :=
  set_repo "git@example.org:easybuild.git" (fresh fs0 ["x1"]).

(** The same object in a session where [tempfile.mkdtemp] has two names
    to draw. *)
Definition git_repo00 : State :=
  set_repo "git@example.org:easybuild.git" (fresh fs0 ["x1"; "x2"]).

(** An svn repository object with its client, before
    [create_working_copy]. *)
Definition svn_repo1 : State :=
  set_client (Some SvnClient)
    (set_repo "http://svn.example.org/repo/sub" (fresh fs0 ["x1"])).

(** The same with its working copy. *)
Definition svn_repo2 : State :=
  state_of (create_working_copy strict env_ok Svn) svn_repo1.

(** The outcome of a client call is a success or a [GitCommandError]. *)
Definition ok_or_git_error {A} (r : result A) : Prop :=
  match r with
  | Ret _ => True
  | Raise e => exn_cls e = GitCommandError
  end.

(** ** Further notions and sessions *)

(** What [log.exception] makes of a failure it is handed. *)
Definition exception_outcome (L : Logger) (m : string) : result unit :=
  if exception_raises L then Raise (Exn EasyBuildError m) else Ret ().

(** Every character of [s] satisfies [P]. *)
Fixpoint all_chars (P : ascii → bool) (s : string) : bool :=
  match s with
  | "" => true
  | String c r => P c && all_chars P r
  end.

(** Environments that differ from a given one in one answer. *)
Definition with_git_bound (b : bool) (E : Env) : Env :=
  mkEnv (VERBOSE_VERSION E) (strftime E) (gethostname E) (getuser E) (getcwd E)
        (gettempdir E)
        b (pysvn_bound E) (git_Git E) (git_clone E) (git_pull E) (git_add E)
        (git_status E) (git_commit E) (git_push E) (svn_Client E) (svn_is_url E)
        (svn_info2 E) (svn_update E) (svn_checkout E) (svn_checkin E).
Definition with_git_clone (r : result (string * string)) (E : Env) : Env :=
  mkEnv (VERBOSE_VERSION E) (strftime E) (gethostname E) (getuser E) (getcwd E)
        (gettempdir E)
        (git_bound E) (pysvn_bound E) (git_Git E) (λ _ _, r) (git_pull E) (git_add E)
        (git_status E) (git_commit E) (git_push E) (svn_Client E) (svn_is_url E)
        (svn_info2 E) (svn_update E) (svn_checkout E) (svn_checkin E).
Definition with_git_status (r : result string) (E : Env) : Env :=
  mkEnv (VERBOSE_VERSION E) (strftime E) (gethostname E) (getuser E) (getcwd E)
        (gettempdir E)
        (git_bound E) (pysvn_bound E) (git_Git E) (git_clone E) (git_pull E) (git_add E)
        (λ _, r) (git_commit E) (git_push E) (svn_Client E) (svn_is_url E)
        (svn_info2 E) (svn_update E) (svn_checkout E) (svn_checkin E).
Definition with_svn_info2 (r : result unit) (E : Env) : Env :=
  mkEnv (VERBOSE_VERSION E) (strftime E) (gethostname E) (getuser E) (getcwd E)
        (gettempdir E)
        (git_bound E) (pysvn_bound E) (git_Git E) (git_clone E) (git_pull E) (git_add E)
        (git_status E) (git_commit E) (git_push E) (svn_Client E) (svn_is_url E)
        (λ _, r) (svn_update E) (svn_checkout E) (svn_checkin E).
Definition with_svn_update (r : result (list Z)) (E : Env) : Env :=
  mkEnv (VERBOSE_VERSION E) (strftime E) (gethostname E) (getuser E) (getcwd E)
        (gettempdir E)
        (git_bound E) (pysvn_bound E) (git_Git E) (git_clone E) (git_pull E) (git_add E)
        (git_status E) (git_commit E) (git_push E) (svn_Client E) (svn_is_url E)
        (svn_info2 E) (λ _, r) (svn_checkout E) (svn_checkin E).

Definition with_git_pull (r : result string) (E : Env) : Env :=
  mkEnv (VERBOSE_VERSION E) (strftime E) (gethostname E) (getuser E) (getcwd E)
        (gettempdir E)
        (git_bound E) (pysvn_bound E) (git_Git E) (git_clone E) (λ _, r) (git_add E)
        (git_status E) (git_commit E) (git_push E) (svn_Client E) (svn_is_url E)
        (svn_info2 E) (svn_update E) (svn_checkout E) (svn_checkin E).

(** The remote cannot be reached, and a pull is run in a directory that is
    not there: starting the [git] process fails with [OSError]. *)
Definition env_unreachable : Env :=
  with_git_pull (Raise (Exn OSError "[Errno 2] No such file or directory")) env_offline.

(** A file repository whose root is [/src]: the package directory of a
    package called [gcc.eb] is taken by the easyconfig file. *)
Definition file_repo_src : State :=
  state_of (new strict env_ok File "/src" "") (fresh fs0 []).

(** The git repository object after [setup_repo]. *)
Definition git_repo_setup : State :=
  state_of (setup_repo strict env_ok Git) git_repo0.

(** * Properties *)

Ltac munfold :=
  unfold mbind, mret, M_bind, M_ret, bind, ret, raise, lift, get, modify,
    try_except in *.

(** Simplify, keeping strings, paths and file-system calls folded. *)
Ltac mcbn :=
  cbn -[Py.fmt Py.path_join Py.join2 header statsprefix statssuffix String.app
        Os.isdir Os.isfile Os.makedirs Os.open_w Os.read Os.flush Os.rmtree
        Os.mkdtemp Py.components] in *.

(** Decide [isinstance] on exceptions of a known class. *)
Ltac isinstance_norm :=
  repeat match goal with
    | |- context [isinstance (Exn ?c ?m) ?d] =>
        let b := eval vm_compute in (isinstance (Exn c EmptyString) d) in
        change (isinstance (Exn c m) d) with b
    | H : context [isinstance (Exn ?c ?m) ?d] |- _ =>
        let b := eval vm_compute in (isinstance (Exn c EmptyString) d) in
        change (isinstance (Exn c m) d) with b in H
    end.

(** ** The primitives on examples *)

Example path_join_empty_subdir :
  Py.path_join "/tmp/repo" [""; "gcc"] = "/tmp/repo/gcc".
Proof. reflexivity. Qed.

Example path_join_absolute_part :
  Py.path_join "/tmp/repo" ["/srv"; "gcc"] = "/srv/gcc".
Proof. reflexivity. Qed.

Example components_skip_empty_fields :
  Py.components "/tmp/repo//gcc/" = ["tmp"; "repo"; "gcc"].
Proof. vm_compute. reflexivity. Qed.

Example fmt_two_directives : Py.fmt "a %s b %s" ["x"; "y"] = "a x b y".
Proof. vm_compute. reflexivity. Qed.

Example reponame_of_clone_output :
  reponame_of ("Cloning into 'easybuild'..." +:+ nl +:+ "done.") = Ret "easybuild".
Proof. vm_compute. reflexivity. Qed.

Example reponame_of_empty_output :
  reponame_of "" = Raise (Exn IndexError "list index out of range").
Proof. vm_compute. reflexivity. Qed.

Example makedirs_then_rmtree :
  let '(f, r) := Os.makedirs fs0 "/tmp/repo/sub" in
  Os.isdir f "/tmp/repo" = true ∧ Os.isdir f "/tmp/repo/sub/" = true
  ∧ returns r = true
  ∧ Os.isdir (Os.rmtree f "/tmp/repo").1 "/tmp/repo/sub" = false.
Proof. vm_compute. auto. Qed.

Example mkdtemp_first_free_name :
  (Os.mkdtemp fs0 "/tmp" "git-wc-" ["a1"]).2 = Ret "/tmp/git-wc-a1".
Proof. vm_compute. reflexivity. Qed.

(** ** Paths *)

Lemma path_join_opt_Some w p :
  path_join_opt (Some w) p = Ret (Py.path_join w p).
Proof.
  unfold path_join_opt, Py.path_join.
  assert (H : foldl join2_opt (Ret (Some w)) p = Ret (Some (foldl Py.join2 w p))).
  { revert w. induction p as [|b p IH]; intros w; [done|]. cbn [foldl].
    unfold join2_opt at 2. destruct (Py.startswith_slash b) eqn:Hs.
    - rewrite IH. replace (Py.join2 w b) with b; [done|].
      unfold Py.join2. by rewrite Hs.
    - by rewrite IH. }
  by rewrite H.
Qed.

Lemma fmt_eb version : Py.fmt "%s.eb" [version] = version +:+ ".eb".
Proof. reflexivity. Qed.

Lemma app_nonempty_r (a b : string) : b ≠ "" → a +:+ b ≠ "".
Proof. intros Hb. destruct a as [|c a]; [exact Hb|]. by change (String c (a +:+ b) ≠ ""). Qed.

Lemma join2_nonempty p b : b ≠ "" → Py.join2 p b ≠ "".
Proof.
  intros Hb. unfold Py.join2.
  destruct (Py.startswith_slash b); [done|].
  destruct (_ || _); repeat apply app_nonempty_r; done.
Qed.

Lemma dest_nonempty full_path version :
  Py.path_join full_path [Py.fmt "%s.eb" [version]] ≠ "".
Proof.
  rewrite fmt_eb. cbn. apply join2_nonempty, app_nonempty_r. done.
Qed.

(** ** The file system *)

Lemma elem_ancestors k : k ≠ [] → k ∈ Os.ancestors k.
Proof.
  induction k as [|c k IH]; [done|]. intros _. cbn.
  destruct k as [|c' k]; [cbn; left|].
  right. apply list_elem_of_fmap. exists (c' :: k). split; [done|]. by apply IH.
Qed.

Lemma isdir_k_add_dirs f k k' :
  Os.isdir_k f k = true → Os.isdir_k (Os.add_dirs f k') k = true.
Proof.
  unfold Os.isdir_k. cbn. intros [H|H]%orb_true_iff; apply orb_true_iff.
  - by left.
  - right. apply bool_decide_eq_true in H. apply bool_decide_eq_true. set_solver.
Qed.

Lemma isdir_k_add_dirs_self f k : Os.isdir_k (Os.add_dirs f k) k = true.
Proof.
  unfold Os.isdir_k. cbn. destruct (decide (k = [])) as [->|Hk]; [done|].
  apply orb_true_iff. right. apply bool_decide_eq_true.
  apply elem_of_union. left. apply elem_of_list_to_set. by apply elem_ancestors.
Qed.

Lemma makedirs_inv f p f' :
  Os.makedirs f p = (f', Ret ()) →
  p ≠ "" ∧ f' = Os.add_dirs f (Py.components p).
Proof.
  unfold Os.makedirs. destruct (decide (p = "")) as [->|Hp]; [done|].
  rewrite (bool_decide_eq_false_2 _ Hp). cbn.
  destruct (_ || _); [done|]. intros [= <-]. done.
Qed.

Lemma makedirs_isdir f p f' :
  Os.makedirs f p = (f', Ret ()) → Os.isdir f' p = true.
Proof.
  intros [Hp ->]%makedirs_inv. unfold Os.isdir.
  rewrite (bool_decide_eq_false_2 _ Hp). cbn. apply isdir_k_add_dirs_self.
Qed.

Lemma makedirs_mono f p f' r q :
  Os.makedirs f p = (f', r) → Os.isdir f q = true → Os.isdir f' q = true.
Proof.
  unfold Os.makedirs. destruct (_ || _); intros [= <- <-]; [done|].
  unfold Os.isdir. intros [H1 H2]%andb_true_iff. rewrite H1. cbn.
  by apply isdir_k_add_dirs.
Qed.

(** ** [FileRepository.setup_repo] *)

Lemma File_setup_repo_twice s s' :
  FileRepository_setup_repo s = (s', Ret ()) →
  FileRepository_setup_repo s' = (s', Ret ()) ∧ self_repo s' = self_repo s
  ∧ self_subdir s' = self_subdir s.
Proof.
  unfold FileRepository_setup_repo, os_path_isdir, os_makedirs. munfold. cbn.
  intros H.
  assert (Hs : self_repo s' = self_repo s ∧ self_subdir s' = self_subdir s
               ∧ Os.isdir (fs s') (self_repo s) = true
               ∧ Os.isdir (fs s') (Py.join2 (self_repo s) (self_subdir s)) = true).
  { destruct (Os.isdir (fs s) (self_repo s)) eqn:Hd; cbn in H.
    - destruct (Os.isdir (fs s) (Py.join2 _ _)) eqn:Hd'; cbn in H.
      + by injection H as <-.
      + destruct (Os.makedirs (fs s) (Py.join2 _ _)) as [f r] eqn:Hm.
        injection H as <- ->. cbn. repeat split; eauto using makedirs_mono, makedirs_isdir.
    - destruct (Os.makedirs (fs s) (self_repo s)) as [f r] eqn:Hm.
      destruct r as [[]|e]; cbn in H; [|done].
      destruct (Os.isdir f (Py.join2 _ _)) eqn:Hd'; cbn in H.
      + injection H as <-. cbn. repeat split; eauto using makedirs_isdir.
      + destruct (Os.makedirs f (Py.join2 _ _)) as [f2 r2] eqn:Hm2.
        injection H as <- ->. cbn.
        repeat split; eauto using makedirs_mono, makedirs_isdir. }
  destruct Hs as (-> & -> & -> & H4). cbn. by rewrite H4.
Qed.

(** ** [setup_repo] *)

Lemma Git_setup_repo_root L E s :
  self_repo (state_of (GitRepository_setup_repo L E) s) = self_repo s.
Proof.
  unfold state_of, GitRepository_setup_repo, log_exception, tempfile_mkdtemp. munfold.
  destruct (git_bound E); cbn.
  - destruct (Os.mkdtemp (fs s) (gettempdir E) "git-wc-" (tmp_names s)) as [[f rest] [wc|e]];
      reflexivity.
  - isinstance_norm. cbn. destruct (exception_raises L); cbn; [done|].
    destruct (Os.mkdtemp (fs s) (gettempdir E) "git-wc-" (tmp_names s)) as [[f rest] [wc|e]];
      reflexivity.
Qed.

(** What a [tempfile.mkdtemp] that returned has done. *)
Lemma mkdtemp_inv f dir pre cands f' rest p :
  Os.mkdtemp f dir pre cands = (f', rest, Ret p) →
  ∃ c, c ∈ cands ∧ p = Py.join2 dir (pre +:+ c)
       ∧ Os.isdir_k f (Py.components p) = false
       ∧ f' = mkFS ({[Py.components p]} ∪ dirs f) (files f).
Proof.
  induction cands as [|c cands IH]; cbn [Os.mkdtemp].
  { intros H. discriminate H. }
  destruct (Os.isdir_k f (Py.components (Py.join2 dir (pre +:+ c)))) eqn:Hd; cbn [orb].
  - intros (c' & ? & ?)%IH. exists c'. split; [by right|done].
  - destruct (bool_decide (is_Some _)).
    + intros (c' & ? & ?)%IH. exists c'. split; [by right|done].
    + destruct (negb _); [intros H; discriminate H|].
      intros H. injection H as <- <- <-. exists c. split; [by left|done].
Qed.

Lemma tempfile_mkdtemp_inv E pre s s' p :
  tempfile_mkdtemp E pre s = (s', Ret p) →
  ∃ c, c ∈ tmp_names s ∧ p = Py.join2 (gettempdir E) (pre +:+ c)
       ∧ Os.isdir_k (fs s) (Py.components p) = false
       ∧ Os.isdir_k (fs s') (Py.components p) = true
       ∧ files (fs s') = files (fs s)
       ∧ (∀ q, Os.isdir (fs s) q = true → Os.isdir (fs s') q = true)
       ∧ self_repo s' = self_repo s ∧ self_subdir s' = self_subdir s
       ∧ self_wc s' = self_wc s ∧ self_client s' = self_client s
       ∧ trace s' = trace s ∧ log s' = log s.
Proof.
  unfold tempfile_mkdtemp.
  destruct (Os.mkdtemp (fs s) (gettempdir E) pre (tmp_names s)) as [[f rest] r] eqn:Hm.
  intros [= <- ->]. apply mkdtemp_inv in Hm as (c & Hin & -> & Hfresh & ->).
  exists c. repeat split; try done.
  - unfold Os.isdir_k. cbn. apply orb_true_iff. right.
    apply bool_decide_eq_true. set_solver.
  - intros q. unfold Os.isdir, Os.isdir_k. cbn.
    intros [-> [H|H]%orb_true_iff]%andb_true_iff; cbn; apply orb_true_iff;
      [by left|right].
    apply bool_decide_eq_true in H. apply bool_decide_eq_true. set_solver.
Qed.

(** A path that is not there has a component, and is not the empty
    string. *)
Lemma absent_nonempty f p :
  Os.isdir_k f (Py.components p) = false → Py.components p ≠ [] ∧ p ≠ "".
Proof.
  intros H. assert (Hk : Py.components p ≠ []).
  { intros Hk. by rewrite Hk in H. }
  split; [done|]. intros ->. by apply Hk.
Qed.

(** The directory that [tempfile.mkdtemp] returned is there. *)
Lemma tempfile_mkdtemp_isdir E pre s s' p :
  tempfile_mkdtemp E pre s = (s', Ret p) →
  Os.isdir (fs s') p = true ∧ Py.components p ≠ [].
Proof.
  intros (c & _ & _ & Hf & Hd & _)%tempfile_mkdtemp_inv.
  destruct (absent_nonempty _ _ Hf) as [Hk Hp]. split; [|done].
  unfold Os.isdir. rewrite Hd, bool_decide_eq_false_2 by done. reflexivity.
Qed.

Lemma Svn_setup_repo_root L E s :
  self_repo (state_of (SvnRepository_setup_repo L E) s)
  = Py.path_join (self_repo s) [self_subdir s].
Proof.
  unfold state_of, SvnRepository_setup_repo, log_exception, log_debug. munfold. cbn.
  destruct (pysvn_bound E) eqn:Hb; cbn; [done|].
  destruct (exception_raises L); cbn; [done|]. by rewrite ?Hb.
Qed.

(** C3.  [SvnRepository.setup_repo] never completes.  With pysvn installed
    the statement [raise pysvn.ClientError] raises an exception that the
    [except NameError] clause around it does not catch, whatever the target
    is; without pysvn the call ends in [log.exception] or in the [NameError]
    of the next use of the module. *)
Theorem Svn_setup_repo_never_completes L E s :
  if pysvn_bound E
  then outcome (setup_repo L E Svn) s = Raise (Exn ClientError "")
  else returns (outcome (setup_repo L E Svn) s) = false.
Proof.
  unfold outcome, setup_repo, SvnRepository_setup_repo, log_exception, log_debug.
  munfold. cbn.
  destruct (pysvn_bound E) eqn:Hb; cbn; [done|].
  destruct (exception_raises L); cbn; [done|]. by rewrite ?Hb.
Qed.

(** [GitRepository.setup_repo] in one step: the test for GitPython, then
    [tempfile.mkdtemp]. *)
Lemma Git_setup_repo_unfold L E s :
  let m := Py.fmt "It seems like GitPython is not available: %s"
                  ["name 'git' is not defined"] in
  let s0 := if git_bound E then s else add_log EXCEPTION m s in
  GitRepository_setup_repo L E s
  = if git_bound E || negb (exception_raises L)
    then match tempfile_mkdtemp E "git-wc-" s0 with
         | (s1, Ret wc) => (set_wc (Some wc) s1, Ret ())
         | (s1, Raise e) => (s1, Raise e)
         end
    else (s0, Raise (Exn EasyBuildError m)).
Proof.
  unfold GitRepository_setup_repo, log_exception. munfold.
  destruct (git_bound E); mcbn.
  - by destruct (tempfile_mkdtemp E "git-wc-" s) as [s1 [wc|e]].
  - isinstance_norm. mcbn. destruct (exception_raises L); mcbn; [done|].
    by destruct (tempfile_mkdtemp E "git-wc-" _) as [s1 [wc|e]].
Qed.

(** C4, as the code has it.  A [FileRepository.setup_repo] that succeeded
    can be repeated: the second call succeeds and changes nothing.  The git
    class keeps the root in every call; after a call that succeeded, a
    second call fails only when [tempfile.mkdtemp] does, and when it
    succeeds it has moved [self.wc] to another new directory and left the
    first one in place.  The svn class joins the subdirectory onto the root
    in every call. *)
Theorem setup_repo_repeated L E b s s' r :
  setup_repo L E b s = (s', r) →
  match b with
  | File => r = Ret () → setup_repo L E File s' = (s', Ret ())
                         ∧ self_repo s' = self_repo s
  | Git =>
      self_repo s' = self_repo s
      ∧ (r = Ret () →
         ∃ wc1, self_wc s' = Some wc1 ∧ Os.isdir (fs s') wc1 = true
           ∧ ∀ s2 r2, setup_repo L E Git s' = (s2, r2) →
               self_repo s2 = self_repo s
               ∧ r2 = match (Os.mkdtemp (fs s') (gettempdir E) "git-wc-"
                                        (tmp_names s')).2 with
                      | Ret _ => Ret ()
                      | Raise e => Raise e
                      end
               ∧ (r2 = Ret () →
                  ∃ wc2, self_wc s2 = Some wc2 ∧ wc2 ≠ wc1
                         ∧ Os.isdir (fs s2) wc2 = true
                         ∧ Os.isdir (fs s2) wc1 = true))
  | Svn => self_repo s' = Py.path_join (self_repo s) [self_subdir s]
  end.
Proof.
  intros H. destruct b; unfold setup_repo in *.
  - intros ->. by destruct (File_setup_repo_twice _ _ H) as (? & ? & ?).
  - assert (Hroot : self_repo s' = self_repo s).
    { rewrite <-(Git_setup_repo_root L E s). unfold state_of. by rewrite H. }
    split; [done|]. intros ->.
    rewrite Git_setup_repo_unfold in H. cbv zeta in H.
    destruct (git_bound E || negb (exception_raises L)) eqn:Hg; [|done].
    destruct (tempfile_mkdtemp E "git-wc-" _) as [s1 [wc1|e]] eqn:Hm; [|done].
    injection H as <-.
    destruct (tempfile_mkdtemp_isdir _ _ _ _ _ Hm) as [Hd1 Hk1].
    exists wc1. split; [done|]. split; [done|].
    intros s2 r2 H2.
    split. { rewrite <-Hroot, <-(Git_setup_repo_root L E (set_wc (Some wc1) s1)).
             unfold state_of. by rewrite H2. }
    rewrite Git_setup_repo_unfold, Hg in H2. cbv zeta in H2. revert H2.
    match goal with |- context [tempfile_mkdtemp E "git-wc-" ?x] =>
      destruct (tempfile_mkdtemp E "git-wc-" x) as [s3 [wc2|e]] eqn:Hm2 end;
      intros H2.
    + injection H2 as <- <-.
      assert (Hsnd : (Os.mkdtemp (fs (set_wc (Some wc1) s1)) (gettempdir E) "git-wc-"
                        (tmp_names (set_wc (Some wc1) s1))).2 = Ret wc2).
      { revert Hm2. unfold tempfile_mkdtemp.
        destruct (git_bound E); cbn [fs tmp_names set_wc add_log];
          destruct (Os.mkdtemp _ _ _ _) as [[f rest] r']; by intros [= _ ->]. }
      rewrite Hsnd. split; [done|]. intros _.
      destruct (tempfile_mkdtemp_isdir _ _ _ _ _ Hm2) as [Hd2 Hk2].
      pose proof (tempfile_mkdtemp_inv _ _ _ _ _ Hm2)
        as (c & _ & _ & Hfresh & _ & _ & Hmono & _).
      exists wc2. split; [done|]. split.
      * intros ->. revert Hfresh. unfold Os.isdir in Hd1.
        apply andb_true_iff in Hd1 as [_ Hd1].
        destruct (git_bound E); cbn [fs set_wc add_log] in *; by rewrite Hd1.
      * split; [done|]. apply Hmono.
        by destruct (git_bound E); cbn [fs set_wc add_log] in *.
    + injection H2 as <- <-.
      assert (Hsnd : (Os.mkdtemp (fs (set_wc (Some wc1) s1)) (gettempdir E) "git-wc-"
                        (tmp_names (set_wc (Some wc1) s1))).2 = Raise e).
      { revert Hm2. unfold tempfile_mkdtemp.
        destruct (git_bound E); cbn [fs tmp_names set_wc add_log];
          destruct (Os.mkdtemp _ _ _ _) as [[f rest] r']; by intros [= _ ->]. }
      rewrite Hsnd. split; [done|]. intros H. discriminate H.
  - rewrite <-(Svn_setup_repo_root L E s). unfold state_of. by rewrite H.
Qed.

Lemma setup_repo_repeated_witness :
  (∃ s', setup_repo strict env_ok File file_repo0 = (s', Ret ())
         ∧ setup_repo strict env_ok File s' = (s', Ret ())
         ∧ self_repo s' = "/tmp/repo")
  ∧ (let s1 := state_of (setup_repo strict env_ok Git) git_repo00 in
     let s2 := state_of (setup_repo strict env_ok Git) s1 in
     self_repo s1 = self_repo git_repo00
     ∧ ∃ wc1 wc2, self_wc s1 = Some wc1 ∧ self_wc s2 = Some wc2 ∧ wc2 ≠ wc1
                  ∧ Os.isdir (fs s2) wc2 = true ∧ Os.isdir (fs s2) wc1 = true).
Proof.
  split.
  - eexists. split; [vm_compute; reflexivity|].
    apply (setup_repo_repeated strict env_ok File file_repo0 _ (Ret ()));
      vm_compute; reflexivity.
  - destruct (setup_repo_repeated strict env_ok Git git_repo00
                (state_of (setup_repo strict env_ok Git) git_repo00) (Ret ()))
      as [H1 H2]; [vm_compute; reflexivity|].
    split; [exact H1|].
    destruct (H2 eq_refl) as (wc1 & Hw & _ & H3).
    destruct (H3 _ (Ret ()) (surjective_pairing _)) as (_ & _ & H4).
    destruct (H4 eq_refl) as (wc2 & ? & ? & ? & ?). by exists wc1, wc2.
Defined.

(** C4 fails for the svn class: the second call resolves another root. *)
Lemma svn_setup_repo_not_idempotent :
  let once := state_of (setup_repo strict env_ok Svn) svn_repo0 in
  let twice := state_of (setup_repo strict env_ok Svn) once in
  self_repo once = "http://svn.example.org/repo/sub"
  ∧ self_repo twice = "http://svn.example.org/repo/sub/sub"
  ∧ self_repo twice ≠ self_repo once.
Proof. vm_compute. repeat split; discriminate. Qed.

(** ** [FileRepository.add_easyconfig] *)

Lemma set_fs_id s : set_fs (fs s) s = s.
Proof. by destruct s. Qed.

Lemma open_w_raise f p f' e :
  Os.open_w f p = (f', Raise e) → f' = f ∧ e = Exn IOError p.
Proof. unfold Os.open_w. destruct (_ || _); by intros [= <- <-]. Qed.

Lemma open_w_inv f p f' :
  Os.open_w f p = (f', Ret ()) →
  f' = mkFS (dirs f) (<[Py.components p := ""]> (files f)).
Proof. unfold Os.open_w. destruct (_ || _); by intros [= <-]. Qed.

Lemma read_raise f p e : Os.read f p = Raise e → e = Exn IOError p.
Proof. unfold Os.read. destruct (_ !! _); by intros [= <-]. Qed.

Lemma prepared_inv f p f' :
  prepared f p = (f', Ret ()) →
  Os.isdir f' p = true ∧ files f' = files f
  ∧ ∀ q, Os.isdir f q = true → Os.isdir f' q = true.
Proof.
  unfold prepared. destruct (Os.isdir f p) eqn:Hd.
  - by intros [= <-].
  - intros H. split; [by eapply makedirs_isdir|].
    split; [|eauto using makedirs_mono].
    by apply makedirs_inv in H as [_ ->].
Qed.

Lemma app_singleton_neq {A} (l : list A) x : l ++ [x] ≠ l.
Proof.
  intros H. apply (f_equal length) in H. rewrite length_app in H. cbn in H. lia.
Qed.

Section FileAdd.
Variable L : Logger.
Variable E : Env.
Variable Stats : Type.
Variable stats_to_str : Stats → string.

Abbreviation File_add := (FileRepository_add_easyconfig L E Stats stats_to_str).

Lemma File_add_easyconfig_unfold s cfg name version stats previous full_path :
  path_join_opt (self_wc s) [self_subdir s; name] = Ret full_path →
  let dest := Py.path_join full_path [version +:+ ".eb"] in
  File_add cfg name version stats previous s
  = match prepared (fs s) full_path with
    | (f1, Raise e) => (set_fs f1 s, Raise e)
    | (f1, Ret _) =>
        match Os.open_w f1 dest with
        | (f2, Raise e) =>
            (log_exception L (copy_failed cfg dest s e) ;; ret dest) (set_fs f2 s)
        | (f2, Ret _) =>
            match Os.read f2 cfg with
            | Ret text =>
                (set_fs (Os.flush f2 dest (record_text E Stats stats_to_str text stats previous)) s,
                 Ret dest)
            | Raise e =>
                (log_exception L (copy_failed cfg dest s e) ;; ret dest)
                  (set_fs (Os.flush f2 dest (header E)) s)
            end
        end
    end.
Proof.
  intros Hp dest. unfold FileRepository_add_easyconfig, prepared.
  unfold os_path_isdir, os_makedirs, write_record, open_w, read, flush, log_exception.
  munfold. rewrite Hp. mcbn. rewrite fmt_eb. fold dest.
  destruct (Os.isdir (fs s) full_path) eqn:Hd; mcbn.
  - destruct (Os.open_w (fs s) dest) as [f2 [[]|e]] eqn:Ho; mcbn.
    + destruct (Os.read f2 cfg) as [text|e] eqn:Hr; mcbn; [reflexivity|].
      apply read_raise in Hr as ->. isinstance_norm. mcbn.
      destruct (exception_raises L); reflexivity.
    + apply open_w_raise in Ho as [-> ->]. isinstance_norm. mcbn.
      destruct (exception_raises L); reflexivity.
  - destruct (Os.makedirs (fs s) full_path) as [f1 [[]|e1]] eqn:Hm; mcbn; [|done].
    destruct (Os.open_w f1 dest) as [f2 [[]|e]] eqn:Ho; mcbn.
    + destruct (Os.read f2 cfg) as [text|e] eqn:Hr; mcbn; [reflexivity|].
      apply read_raise in Hr as ->. isinstance_norm. mcbn.
      destruct (exception_raises L); reflexivity.
    + apply open_w_raise in Ho as [-> ->]. isinstance_norm. mcbn.
      destruct (exception_raises L); reflexivity.
Qed.

(** What a call that came back tells: the object is as before, and either
    the record was written in full and nothing was logged, or an [IOError]
    was logged by a logger that does not raise. *)
Lemma File_add_easyconfig_returned s s' cfg name version stats previous d :
  File_add cfg name version stats previous s = (s', Ret d) →
  ∃ full_path f1 f2,
    path_join_opt (self_wc s) [self_subdir s; name] = Ret full_path
    ∧ d = Py.path_join full_path [version +:+ ".eb"]
    ∧ prepared (fs s) full_path = (f1, Ret ())
    ∧ ((∃ text, Os.open_w f1 d = (f2, Ret ()) ∧ Os.read f2 cfg = Ret text
          ∧ s' = set_fs (Os.flush f2 d (record_text E Stats stats_to_str text stats previous)) s)
       ∨ (exception_raises L = false ∧ ∃ m, log s' = log s ++ [(EXCEPTION, m)])).
Proof.
  intros H.
  destruct (path_join_opt (self_wc s) [self_subdir s; name]) as [full_path|e] eqn:Hp.
  2:{ unfold FileRepository_add_easyconfig in H. munfold. by rewrite Hp in H. }
  rewrite (File_add_easyconfig_unfold _ _ _ _ _ _ _ Hp) in H. mcbn.
  exists full_path.
  destruct (prepared (fs s) full_path) as [f1 [[]|e1]] eqn:Hprep; [|done].
  exists f1.
  destruct (Os.open_w f1 _) as [f2 [[]|e]] eqn:Ho.
  - exists f2. destruct (Os.read f2 cfg) as [text|e] eqn:Hr.
    + injection H as <- <-. repeat split; try done. left. by exists text.
    + unfold log_exception in H. munfold. mcbn.
      destruct (exception_raises L); [done|]. injection H as <- <-.
      repeat split; try done. right. split; [done|]. by eexists.
  - exists f2. unfold log_exception in H. munfold. mcbn.
    destruct (exception_raises L); [done|]. injection H as <- <-.
    repeat split; try done. right. split; [done|]. by eexists.
Qed.

(** The rest of the state is left alone, whatever the outcome. *)
Lemma File_add_easyconfig_frame s s' r cfg name version stats previous :
  File_add cfg name version stats previous s = (s', r) →
  self_repo s' = self_repo s ∧ self_subdir s' = self_subdir s
  ∧ self_wc s' = self_wc s ∧ self_client s' = self_client s
  ∧ svn_versioned s' = svn_versioned s ∧ trace s' = trace s.
Proof.
  intros H.
  destruct (path_join_opt (self_wc s) [self_subdir s; name]) as [full_path|e] eqn:Hp.
  2:{ unfold FileRepository_add_easyconfig in H. munfold. rewrite Hp in H.
      injection H as <- <-. repeat split; reflexivity. }
  rewrite (File_add_easyconfig_unfold _ _ _ _ _ _ _ Hp) in H. mcbn.
  unfold log_exception in H. munfold. mcbn.
  destruct (prepared (fs s) full_path) as [f1 [[]|e1]];
    [destruct (Os.open_w f1 _) as [f2 [[]|e2]];
     [destruct (Os.read f2 cfg) as [text|e3]|]|];
    mcbn; try destruct (exception_raises L); mcbn;
    injection H as <- <-; repeat split; reflexivity.
Qed.

(** A record written in full can be read back. *)
Lemma written_record_found f1 f2 full_path d text :
  Os.isdir f1 full_path = true →
  Os.open_w f1 d = (f2, Ret ()) →
  let f3 := Os.flush f2 d text in
  Os.isdir f3 full_path = true ∧ Os.isfile f3 d = true ∧ Os.read f3 d = Ret text.
Proof.
  intros Hd ->%open_w_inv f3. unfold f3, Os.flush, Os.isfile, Os.read, Os.isdir. cbn.
  rewrite lookup_insert_eq. repeat split; done.
Qed.

Lemma read_before_open f f1 f2 full_path cfg d text :
  prepared f full_path = (f1, Ret ()) →
  Os.open_w f1 d = (f2, Ret ()) →
  Os.read f2 cfg = Ret text →
  (Py.components cfg ≠ Py.components d → Os.read f cfg = Ret text)
  ∧ (Py.components cfg = Py.components d → text = "").
Proof.
  intros (_ & Hf & _)%prepared_inv ->%open_w_inv. unfold Os.read. cbn. rewrite Hf.
  intros H. split; intros Hc.
  - by rewrite lookup_insert_ne in H.
  - rewrite Hc, lookup_insert_eq in H. by injection H.
Qed.

End FileAdd.

(** ** [get_buildstats] *)

(** C7.  When the directory of the package or the file of the version is
    not there, [get_buildstats] returns the empty list and leaves the file
    system as it is. *)
Theorem get_buildstats_never_recorded Stats parse (b : backend) s w name version :
  self_wc s = Some w →
  let full_path := Py.path_join w [self_subdir s; name] in
  Os.isdir (fs s) full_path = false
  ∨ Os.isfile (fs s) (Py.path_join full_path [version +:+ ".eb"]) = false →
  outcome (get_buildstats Stats parse b name version) s = Ret []
  ∧ fs (state_of (get_buildstats Stats parse b name version) s) = fs s.
Proof.
  intros Hw full_path H.
  unfold outcome, state_of, get_buildstats, FileRepository_get_buildstats.
  unfold os_path_isdir, os_path_isfile, log_debug, read. munfold.
  rewrite Hw, path_join_opt_Some. fold full_path. mcbn. rewrite fmt_eb.
  destruct (Os.isdir (fs s) full_path) eqn:Hd; mcbn; [|done].
  destruct H as [H|H]; [done|]. rewrite H. by mcbn.
Qed.

Lemma get_buildstats_never_recorded_witness :
  let s := state_of (new strict env_ok File "/tmp/repo" "") (fresh fs0 []) in
  outcome (get_buildstats string Reader.buildstats File "neverbuilt" "1.0") s = Ret [].
Proof.
  intros s.
  apply (get_buildstats_never_recorded string Reader.buildstats File s "/tmp/repo"
           "neverbuilt" "1.0"); [reflexivity|]. left. vm_compute. reflexivity.
Defined.

(** ** The statistics block *)

Lemma record_text_block E Stats sts text stats previous :
  record_text E Stats sts text stats previous
  = (header E +:+ text)
    +:+ (if previous
         then nl +:+ "buildstats.append(" +:+ sts stats +:+ ")" +:+ nl
         else nl +:+ "# Build statistics" +:+ nl +:+ "buildstats = ["
                 +:+ sts stats +:+ "]" +:+ nl).
Proof.
  unfold record_text, statsprefix, statssuffix.
  destruct previous; reflexivity.
Qed.

(** The version-control steps that follow the write leave the file system
    alone. *)
Lemma add_easyconfig_fs L E Stats sts b s s1 r cfg name version stats previous :
  FileRepository_add_easyconfig L E Stats sts cfg name version stats previous s
    = (s1, r) →
  fs (state_of (add_easyconfig L E Stats sts b cfg name version stats previous) s)
  = fs s1.
Proof.
  intros H. unfold state_of, add_easyconfig.
  unfold GitRepository_add_easyconfig, SvnRepository_add_easyconfig.
  unfold git_call_add, git_cwd, svn_call_status, svn_call_add, svn_client,
    log_debug, log_warning.
  destruct b; munfold; rewrite H; destruct r as [dest|e]; mcbn; try reflexivity.
  - destruct (bool_decide (dest = "")); mcbn; [reflexivity|].
    destruct (self_client s1) as [[wd|]|]; mcbn;
      try (destruct (git_bound E); reflexivity).
    destruct (git_add E wd dest) as [[]|e]; mcbn; [reflexivity|].
    destruct (git_bound E); mcbn; [|reflexivity].
    destruct (isinstance e GitCommandError); reflexivity.
  - destruct (bool_decide (dest = "")); mcbn; [reflexivity|].
    destruct (self_client s1) as [[wd|]|]; mcbn; try reflexivity.
    destruct (bool_decide (Py.components dest ∈ svn_versioned s1)) eqn:Hv; mcbn;
      [reflexivity|].
    rewrite Hv. reflexivity.
Qed.

(** C6.  Every class writes the record through
    [FileRepository.add_easyconfig].  When that write came back without
    logging an [IOError], the record file holds, after the call, the header,
    the text of the easyconfig file, and then the list literal
    [buildstats = [...]] under its comment line when [previous] is false,
    the expression [buildstats.append(...)] when it is true. *)
Theorem add_easyconfig_statistics_block L E Stats sts b s s1 cfg name version stats
    previous dest :
  FileRepository_add_easyconfig L E Stats sts cfg name version stats previous s
    = (s1, Ret dest) →
  log s1 = log s →
  ∃ text,
    Os.read (fs (state_of (add_easyconfig L E Stats sts b cfg name version stats
                             previous) s)) dest
    = Ret ((header E +:+ text)
           +:+ (if previous
                then nl +:+ "buildstats.append(" +:+ sts stats +:+ ")" +:+ nl
                else nl +:+ "# Build statistics" +:+ nl +:+ "buildstats = ["
                        +:+ sts stats +:+ "]" +:+ nl))
    ∧ (Py.components cfg ≠ Py.components dest → Os.read (fs s) cfg = Ret text).
Proof.
  intros H Hlog. rewrite (add_easyconfig_fs _ _ _ _ b _ _ _ _ _ _ _ _ H).
  apply File_add_easyconfig_returned in H
    as (full_path & f1 & f2 & Hp & -> & Hprep & [(text & Ho & Hr & ->)|(_ & m & Hm)]).
  2:{ rewrite Hm in Hlog. by apply app_singleton_neq in Hlog. }
  exists text. rewrite <-record_text_block. split.
  - apply prepared_inv in Hprep as (Hd & _ & _).
    by destruct (written_record_found f1 f2 full_path _
                   (record_text E Stats sts text stats previous) Hd Ho) as (_ & _ & ?).
  - by destruct (read_before_open _ _ _ _ _ _ _ Hprep Ho Hr).
Qed.

Lemma add_easyconfig_statistics_block_witness :
  ∃ text,
    Os.read (fs (state_of (add_easyconfig strict env_ok string id Git
                             "/src/gcc.eb" "gcc" "4.8" "{'time': 120}" false) git_repo1))
            "/tmp/git-wc-x1/easybuild/gcc/4.8.eb"
    = Ret ((header env_ok +:+ text)
           +:+ nl +:+ "# Build statistics" +:+ nl +:+ "buildstats = ["
           +:+ "{'time': 120}" +:+ "]" +:+ nl)
    ∧ (Py.components "/src/gcc.eb" ≠ Py.components "/tmp/git-wc-x1/easybuild/gcc/4.8.eb" →
       Os.read (fs git_repo1) "/src/gcc.eb" = Ret text).
Proof.
  apply (add_easyconfig_statistics_block strict env_ok string id Git git_repo1
           (state_of (FileRepository_add_easyconfig strict env_ok string id
                        "/src/gcc.eb" "gcc" "4.8" "{'time': 120}" false) git_repo1)
           "/src/gcc.eb" "gcc" "4.8" "{'time': 120}" false
           "/tmp/git-wc-x1/easybuild/gcc/4.8.eb");
    vm_compute; reflexivity.
Defined.

(** ** What [add_easyconfig] returns *)

Lemma then_None_returns {A B} (m : M A) (s s' : State) (v : option B) :
  (m ;; ret None) s = (s', Ret v) → v = None.
Proof. munfold. destruct (m s) as [s1 [a|e]]; [|done]. by intros [= _ <-]. Qed.

(** C2, as the code has it.  [FileRepository.add_easyconfig] returns the
    path of the record file; when [log.exception] raises, or when nothing
    was logged, the file at that path was written in full.  The methods of
    the git and svn classes have no [return]: a call that comes back gives
    [None]. *)
Theorem add_easyconfig_result L E Stats sts b s s' cfg name version stats previous v :
  add_easyconfig L E Stats sts b cfg name version stats previous s = (s', Ret v) →
  match b with
  | File =>
      ∃ dest, v = Some dest
        ∧ (exception_raises L = true ∨ log s' = log s →
           ∃ text, Os.read (fs s') dest
                   = Ret (record_text E Stats sts text stats previous))
  | Git | Svn => v = None
  end.
Proof.
  destruct b; unfold add_easyconfig.
  - munfold.
    destruct (FileRepository_add_easyconfig _ _ _ _ _ _ _ _ _ s) as [s1 [d|e]] eqn:H;
      [|done].
    intros [= <- <-]. exists d. split; [done|]. intros Hok.
    apply File_add_easyconfig_returned in H
      as (full_path & f1 & f2 & Hp & -> & Hprep & [(text & Ho & Hr & ->)|(Hl & m & Hm)]).
    + exists text. apply prepared_inv in Hprep as (Hd & _ & _).
      by destruct (written_record_found f1 f2 full_path _
                     (record_text E Stats sts text stats previous) Hd Ho) as (_ & _ & ?).
    + destruct Hok as [Hok|Hok]; [congruence|].
      rewrite Hm in Hok. by apply app_singleton_neq in Hok.
  - unfold GitRepository_add_easyconfig. munfold.
    destruct (FileRepository_add_easyconfig _ _ _ _ _ _ _ _ _ s) as [s1 [d|e]]; [|done].
    match goal with |- (let (_, _) := ?m in _) = _ → _ =>
      destruct m as [s2 [[]|e]] end; [|done].
    by intros [= _ <-].
  - unfold SvnRepository_add_easyconfig. munfold.
    destruct (FileRepository_add_easyconfig _ _ _ _ _ _ _ _ _ s) as [s1 [d|e]]; [|done].
    destruct (log_debug _ s1) as [s2 [[]|e]]; [|done].
    match goal with |- (let (_, _) := ?m in _) = _ → _ =>
      destruct m as [s3 [[]|e]] end; [|done].
    by intros [= _ <-].
Qed.

Lemma add_easyconfig_result_witness :
  ∃ dest,
    Some "/tmp/repo/gcc/4.8.eb" = Some dest
    ∧ (exception_raises strict = true
       ∨ log (state_of (add_easyconfig strict env_ok string id File "/src/gcc.eb" "gcc"
                          "4.8" "{'time': 120}" false) file_repo1) = log file_repo1 →
       ∃ text,
         Os.read (fs (state_of (add_easyconfig strict env_ok string id File
                                  "/src/gcc.eb" "gcc" "4.8" "{'time': 120}" false)
                        file_repo1)) dest
         = Ret (record_text env_ok string id text "{'time': 120}" false)).
Proof.
  apply (add_easyconfig_result strict env_ok string id File file_repo1 _
           "/src/gcc.eb" "gcc" "4.8" "{'time': 120}" false (Some "/tmp/repo/gcc/4.8.eb")).
  vm_compute. reflexivity.
Defined.

(** C2 fails for the git class: the record is written and staged, and the
    call returns nothing. *)
Lemma git_add_easyconfig_returns_nothing :
  let m := add_easyconfig strict env_ok string id Git "/src/gcc.eb" "gcc" "4.8"
             "{'time': 120}" false in
  outcome m git_repo1 = Ret None
  ∧ Os.read (fs (state_of m git_repo1)) "/tmp/git-wc-x1/easybuild/gcc/4.8.eb"
    = Ret (record_text env_ok string id ("name = 'gcc'" +:+ nl) "{'time': 120}" false)
  ∧ trace (state_of m git_repo1)
    = trace git_repo1
      ++ [GitAdd (Some "/tmp/git-wc-x1/easybuild") "/tmp/git-wc-x1/easybuild/gcc/4.8.eb"].
Proof. vm_compute. auto. Qed.

(** ** Two writes of the same record *)

Lemma get_buildstats_found Stats parse b s name version full_path text :
  path_join_opt (self_wc s) [self_subdir s; name] = Ret full_path →
  let dest := Py.path_join full_path [version +:+ ".eb"] in
  Os.isdir (fs s) full_path = true →
  Os.isfile (fs s) dest = true →
  Os.read (fs s) dest = Ret text →
  get_buildstats Stats parse b name version s = (s, parse text).
Proof.
  intros Hp dest Hd Hf Hr. unfold get_buildstats, FileRepository_get_buildstats.
  unfold os_path_isdir, os_path_isfile, read. munfold.
  rewrite Hp. mcbn. rewrite Hd. mcbn. rewrite fmt_eb. fold dest. rewrite Hf. mcbn.
  rewrite Hr. by destruct (parse text).
Qed.

(** C1, as the code has it.  The second call opens the record file for
    writing and copies its own easyconfig file: afterwards the file holds the
    header, the text of that easyconfig file and [buildstats.append(...)]
    with the statistics of the second call, and [get_buildstats] returns
    what the reader makes of this text.  The statistics of the first call
    are in it only when the second easyconfig file carries them; an
    easyconfig file that is the record file itself is read empty, after
    the truncation. *)
Theorem second_add_easyconfig_rewrites L E Stats sts parse s0 s1 s2
    cfg1 cfg2 name version st1 st2 d1 d2 :
  FileRepository_add_easyconfig L E Stats sts cfg1 name version st1 false s0
    = (s1, Ret d1) →
  FileRepository_add_easyconfig L E Stats sts cfg2 name version st2 true s1
    = (s2, Ret d2) →
  log s2 = log s1 →
  d2 = d1
  ∧ ∃ text2,
      Os.read (fs s2) d2
      = Ret ((header E +:+ text2) +:+ nl +:+ "buildstats.append(" +:+ sts st2
             +:+ ")" +:+ nl)
      ∧ outcome (get_buildstats Stats parse File name version) s2
        = parse ((header E +:+ text2) +:+ nl +:+ "buildstats.append(" +:+ sts st2
                 +:+ ")" +:+ nl)
      ∧ (Py.components cfg2 ≠ Py.components d2 → Os.read (fs s1) cfg2 = Ret text2)
      ∧ (Py.components cfg2 = Py.components d2 → text2 = "").
Proof.
  intros H1 H2 Hlog.
  pose proof (File_add_easyconfig_frame _ _ _ _ _ _ _ _ _ _ _ _ H1)
    as (_ & Hsub & Hwc & _).
  apply File_add_easyconfig_returned in H1 as (fp1 & _ & _ & Hp1 & -> & _).
  apply File_add_easyconfig_returned in H2
    as (fp & f1 & f2 & Hp & -> & Hprep & [(text & Ho & Hr & ->)|(_ & m & Hm)]).
  2:{ rewrite Hm in Hlog. by apply app_singleton_neq in Hlog. }
  rewrite Hsub, Hwc, Hp1 in Hp. injection Hp as <-. split; [done|].
  exists text. change ((header E +:+ text) +:+ _)
    with (record_text E Stats sts text st2 true).
  pose proof (prepared_inv _ _ _ Hprep) as (Hd & _ & _).
  destruct (written_record_found f1 f2 fp1 _
              (record_text E Stats sts text st2 true) Hd Ho) as (Hd' & Hf' & Hr').
  destruct (read_before_open _ _ _ _ _ _ _ Hprep Ho Hr) as [Hne Heq].
  repeat split; try done.
  unfold outcome. erewrite get_buildstats_found; [done| |done..].
  cbn. by rewrite Hsub, Hwc.
Qed.

Lemma second_add_easyconfig_rewrites_witness :
  "/tmp/repo/gcc/4.8.eb" = "/tmp/repo/gcc/4.8.eb"
  ∧ ∃ text2,
      Os.read (fs file_repo3) "/tmp/repo/gcc/4.8.eb"
      = Ret ((header env_ok +:+ text2) +:+ nl +:+ "buildstats.append("
             +:+ "{'time': 90}" +:+ ")" +:+ nl)
      ∧ outcome (get_buildstats string Reader.buildstats File "gcc" "4.8") file_repo3
        = Reader.buildstats
            ((header env_ok +:+ text2) +:+ nl +:+ "buildstats.append("
             +:+ "{'time': 90}" +:+ ")" +:+ nl)
      ∧ (Py.components "/src/gcc.eb" ≠ Py.components "/tmp/repo/gcc/4.8.eb" →
         Os.read (fs file_repo2) "/src/gcc.eb" = Ret text2)
      ∧ (Py.components "/src/gcc.eb" = Py.components "/tmp/repo/gcc/4.8.eb" →
         text2 = "").
Proof.
  apply (second_add_easyconfig_rewrites strict env_ok string id Reader.buildstats
           file_repo1 file_repo2 file_repo3 "/src/gcc.eb" "/src/gcc.eb" "gcc" "4.8"
           "{'time': 120}" "{'time': 90}" "/tmp/repo/gcc/4.8.eb" "/tmp/repo/gcc/4.8.eb");
    vm_compute; reflexivity.
Defined.

(** C1 fails: after a first write and a second write with [previous] set,
    from the same easyconfig file, the record file holds the statistics of
    the second write alone, in an [append] to a list that the file does not
    define.  No reader of the file can return the statistics of the first
    write in front of those of the second, whatever the first ones were. *)
Lemma second_write_drops_first :
  outcome (add_gcc "{'time': 120}" false "/src/gcc.eb") file_repo1
    = Ret "/tmp/repo/gcc/4.8.eb"
  ∧ outcome (add_gcc "{'time': 90}" true "/src/gcc.eb") file_repo2
    = Ret "/tmp/repo/gcc/4.8.eb"
  ∧ Os.read (fs file_repo3) "/tmp/repo/gcc/4.8.eb"
    = Ret (header env_ok +:+ "name = 'gcc'" +:+ nl
           +:+ nl +:+ "buildstats.append({'time': 90})" +:+ nl)
  ∧ ∀ parse : string → result (list string),
      ¬ ∀ e1 : string,
          outcome (get_buildstats string parse File "gcc" "4.8")
            (state_of (add_gcc "{'time': 90}" true "/src/gcc.eb")
               (state_of (add_gcc e1 false "/src/gcc.eb") file_repo1))
          = Ret [e1; "{'time': 90}"].
Proof.
  repeat split; try (vm_compute; reflexivity).
  intros parse H.
  pose proof (H "{'time': 120}") as H1. pose proof (H "{'time': 60}") as H2.
  vm_compute in H1, H2. rewrite H1 in H2. discriminate.
Qed.

(** With the reader of record files modelled from the spec: the first
    record reads back; the second read of the two writes above fails on the
    unbound name; a second record written from a copy of the first record
    file carries both statistics. *)
Example first_write_read_back :
  outcome (get_buildstats string Reader.buildstats File "gcc" "4.8") file_repo2
  = Ret ["{'time': 120}"].
Proof. vm_compute. reflexivity. Qed.

Example second_write_unreadable :
  outcome (get_buildstats string Reader.buildstats File "gcc" "4.8") file_repo3
  = Raise (Exn NameError "name 'buildstats' is not defined").
Proof. vm_compute. reflexivity. Qed.

Example second_write_from_copy :
  outcome (get_buildstats string Reader.buildstats File "gcc" "4.8") file_repo3_copied
  = Ret ["{'time': 120}"; "{'time': 90}"].
Proof. vm_compute. reflexivity. Qed.

(** ** [GitRepository.cleanup] *)

(** C5.  [setup_repo] allocates [/tmp/git-wc-x1]; [create_working_copy]
    moves [self.wc] to the clone below it; [cleanup], after a commit, removes
    the clone and leaves the temporary directory behind.  The same holds
    when the clone failed and [self.wc] names a directory that is not
    there. *)
Theorem git_cleanup_leaves_tmpdir :
  self_wc (state_of (setup_repo strict env_ok Git) git_repo0) = Some "/tmp/git-wc-x1"
  ∧ self_wc git_repo1 = Some "/tmp/git-wc-x1/easybuild"
  ∧ (let s := state_of (commit strict env_ok Git (Some "gcc 4.8")) git_repo1 in
     outcome (cleanup strict Git) s = Ret ()
     ∧ Os.isdir (fs (state_of (cleanup strict Git) s)) "/tmp/git-wc-x1/easybuild" = false
     ∧ Os.isdir (fs (state_of (cleanup strict Git) s)) "/tmp/git-wc-x1" = true)
  ∧ (let s := state_of (new lenient env_offline Git "git@example.org:easybuild.git" "")
                (fresh fs0 ["x1"]) in
     let s' := state_of (commit lenient env_offline Git (Some "gcc 4.8")) s in
     self_wc s = Some "/tmp/git-wc-x1/UNKNOWN"
     ∧ Os.isdir (fs (state_of (cleanup lenient Git) s')) "/tmp/git-wc-x1" = true).
Proof. vm_compute. repeat split; reflexivity. Qed.

(** [shutil.rmtree] removes nothing outside the tree it is given. *)
Lemma rmtree_keeps_outside f p q f' r :
  Os.rmtree f p = (f', r) →
  Os.isdir f q = true →
  ¬ Py.components p `prefix_of` Py.components q →
  Os.isdir f' q = true.
Proof.
  unfold Os.rmtree. destruct (_ && _); intros [= <- <-] Hq Hn; [|done].
  unfold Os.isdir, Os.isdir_k in *. cbn.
  apply andb_true_iff in Hq as [-> Hq]. cbn.
  apply orb_true_iff in Hq as [Hq|Hq]; apply orb_true_iff; [by left|right].
  apply bool_decide_eq_true in Hq. apply bool_decide_eq_true.
  by apply elem_of_filter.
Qed.

(** [cleanup] removes what lies at [self.wc] and below, nothing else: a
    directory that [self.wc] is not a part of the path to stays. *)
Lemma Git_cleanup_keeps_outside L s q :
  Os.isdir (fs s) q = true →
  (∀ wc, self_wc s = Some wc → ¬ Py.components wc `prefix_of` Py.components q) →
  Os.isdir (fs (state_of (cleanup L Git) s)) q = true.
Proof.
  intros Hq Hn. unfold state_of, cleanup, GitRepository_cleanup, rmtree2.
  unfold log_info, log_error, log_exception. munfold. mcbn.
  destruct (self_wc s) as [wc|]; mcbn.
  - destruct (Os.rmtree (fs s) wc) as [f' [[]|e]] eqn:Hr; mcbn.
    + eapply rmtree_keeps_outside; eauto.
    + destruct (error_raises L); mcbn; [|done].
      isinstance_norm. by mcbn.
  - destruct (error_raises L); mcbn; [|done]. isinstance_norm. by mcbn.
Qed.

(** ** Components of a joined path *)

Lemma string_app_assoc (a b c : string) : (a +:+ b) +:+ c = a +:+ (b +:+ c).
Proof.
  induction a as [|x a IH]; [done|].
  change (String x ((a +:+ b) +:+ c) = String x (a +:+ (b +:+ c))). by rewrite IH.
Qed.

Lemma split_go_app sep cur a b :
  Py.split_go sep cur (a +:+ String sep b)
  = Py.split_go sep cur a ++ Py.split_go sep "" b.
Proof.
  revert cur. induction a as [|x a IH]; intros cur.
  - change ("" +:+ String sep b) with (String sep b). cbn.
    by rewrite bool_decide_eq_true_2.
  - change (String x a +:+ String sep b) with (String x (a +:+ String sep b)). cbn.
    destruct (bool_decide (x = sep)); by rewrite IH.
Qed.

Lemma components_app_slash a b :
  Py.components (a +:+ "/" +:+ b) = Py.components a ++ Py.components b.
Proof.
  unfold Py.components, Py.split.
  change ("/" +:+ b) with (String "/"%char b).
  by rewrite split_go_app, filter_app.
Qed.

Lemma endswith_slash_inv t :
  Py.endswith_slash t = true → ∃ t', t = t' +:+ "/".
Proof.
  induction t as [|x t IH]; [done|]. cbn. destruct t as [|y t].
  - intros ->%bool_decide_eq_true. by exists "".
  - intros [t' ->]%IH. by exists (String x t').
Qed.

Lemma components_join2 t r :
  Py.startswith_slash r = false →
  Py.components (Py.join2 t r) = Py.components t ++ Py.components r.
Proof.
  intros Hr. unfold Py.join2. rewrite Hr.
  destruct (decide (t = "")) as [->|Ht].
  { by rewrite bool_decide_eq_true_2. }
  rewrite (bool_decide_eq_false_2 _ Ht), orb_false_l.
  destruct (Py.endswith_slash t) eqn:He.
  - apply endswith_slash_inv in He as [t' ->].
    rewrite string_app_assoc, !components_app_slash.
    change (t' +:+ "/") with (t' +:+ "/" +:+ ""). rewrite components_app_slash.
    change (Py.components "") with (@nil string). by rewrite app_nil_r.
  - apply components_app_slash.
Qed.

(** After [create_working_copy] has moved [self.wc] to a directory below
    the temporary directory, [cleanup] leaves the temporary directory. *)
Lemma Git_cleanup_keeps_tmpdir L s tmp reponame :
  Os.isdir (fs s) tmp = true →
  self_wc s = Some (Py.join2 tmp reponame) →
  Py.startswith_slash reponame = false →
  Py.components reponame ≠ [] →
  Os.isdir (fs (state_of (cleanup L Git) s)) tmp = true.
Proof.
  intros Hd Hw Hr Hc. apply Git_cleanup_keeps_outside; [done|].
  intros wc Hwc. rewrite Hw in Hwc. injection Hwc as <-.
  rewrite components_join2 by done. intros Hp%prefix_length.
  rewrite length_app in Hp. destruct (Py.components reponame); [done|]. cbn in Hp. lia.
Qed.

(** What [create_working_copy] leaves in [self.wc] when it returns: the
    temporary directory of [setup_repo] joined with the name of the clone,
    or with [UNKNOWN]. *)
Lemma Git_create_working_copy_wc L E s s' tmp :
  self_wc s = Some tmp →
  GitRepository_create_working_copy L E s = (s', Ret ()) →
  ∃ reponame, self_wc s' = Some (Py.join2 tmp reponame).
Proof.
  intros Hw. unfold GitRepository_create_working_copy. munfold.
  match goal with |- (let (_, _) := ?m in _) = _ → _ =>
    destruct m as [s1 [reponame|e]] eqn:H1 end; [|done].
  assert (Hw1 : self_wc s1 = self_wc s).
  { revert H1. unfold new_Git, git_call_clone, log_debug, log_warning. munfold.
    destruct (git_bound E); mcbn; [|done].
    destruct (git_Git E (self_wc s)) as [[]|e]; mcbn.
    - destruct (git_clone E (self_wc s) (self_repo s)) as [[out d]|e]; mcbn.
      + destruct (reponame_of out) as [rn|e]; mcbn; [intros [= <- _]; reflexivity|].
        destruct (isinstance e GitCommandError); mcbn;
          [intros [= <- _]; reflexivity|done].
      + destruct (isinstance e GitCommandError); mcbn; [intros [= <- _]; reflexivity|done].
    - destruct (isinstance e GitCommandError); mcbn; [intros [= <- _]; reflexivity|done]. }
  rewrite Hw, path_join_opt_Some.
  change (Py.path_join tmp [reponame]) with (Py.join2 tmp reponame). mcbn.
  unfold new_Git, git_call_pull, git_cwd, log_debug, log_error, log_exception. munfold.
  intros H. exists reponame. revert H. mcbn.
  destruct (git_bound E); mcbn; [|done].
  destruct (git_Git E (Some (Py.join2 tmp reponame))) as [[]|e]; mcbn.
  - destruct (git_pull E (Some (Py.join2 tmp reponame))) as [res|e]; mcbn;
      [intros [= <-]; reflexivity|].
    destruct (isinstance e GitCommandError || (isinstance e OSError || false)); mcbn;
      [|done].
    destruct (exception_raises L); mcbn; [done|intros [= <-]; reflexivity].
  - destruct (isinstance e GitCommandError || (isinstance e OSError || false)); mcbn;
      [|done].
    destruct (error_raises L); mcbn; [done|].
    destruct (self_client s1) as [[wd|]|]; mcbn; try done.
    destruct (git_pull E wd) as [res|e']; mcbn; [intros [= <-]; reflexivity|].
    destruct (isinstance e' GitCommandError || (isinstance e' OSError || false)); mcbn;
      [|done].
    destruct (exception_raises L); mcbn; [done|intros [= <-]; reflexivity].
Qed.

(** ** Failures of git that are tolerated *)

Lemma logged_last (l : list (level * string)) x : x ∈ l ++ [x].
Proof. apply elem_of_app. right. by apply list_elem_of_singleton. Qed.

Lemma logged_before (l : list (level * string)) x y : x ∈ l → x ∈ l ++ [y].
Proof. intros. apply elem_of_app. by left. Qed.

Ltac logged := repeat first [apply logged_last | apply logged_before].

Lemma Git_create_working_copy_clone_failed L E s w e :
  git_bound E = true →
  self_wc s = Some w →
  git_Git E (Some w) = Ret () →
  git_clone E (Some w) (self_repo s) = Raise e →
  exn_cls e = GitCommandError →
  git_Git E (Some (Py.join2 w "UNKNOWN")) = Ret () →
  let wc := Py.join2 w "UNKNOWN" in
  let s' := state_of (GitRepository_create_working_copy L E) s in
  outcome (GitRepository_create_working_copy L E) s
  = match git_pull E (Some wc) with
    | Ret _ => Ret ()
    | Raise e' =>
        if isinstance e' GitCommandError || isinstance e' OSError
        then exception_outcome L
               (Py.fmt "pull in working copy %s went wrong: %s" [wc; str_exn e'])
        else Raise e'
    end
  ∧ self_wc s' = Some wc
  ∧ self_client s' = Some (GitClient (Some wc))
  ∧ trace s' = trace s ++ [GitClone (Some w) (self_repo s); GitPull (Some wc)]
  ∧ (WARNING, Py.fmt "Git local repo initialization failed, it might already exist: %s"
                     [str_exn e]) ∈ log s'.
Proof.
  intros Hb Hw HG Hc He HG' wc s'.
  unfold s', outcome, state_of, GitRepository_create_working_copy, exception_outcome.
  unfold new_Git, git_call_clone, git_call_pull, git_cwd, log_warning, log_debug,
    log_exception.
  munfold. rewrite Hb, Hw, HG. mcbn. rewrite Hc. mcbn.
  destruct e as [c m]. cbn in He. subst c. isinstance_norm. mcbn.
  fold wc in HG'. fold wc. rewrite HG'. mcbn.
  destruct (git_pull E (Some wc)) as [res|e]; mcbn.
  - repeat split; try done; first [by rewrite <-!app_assoc | logged].
  - rewrite orb_false_r.
    destruct (isinstance e GitCommandError || isinstance e OSError); mcbn.
    + destruct (exception_raises L); mcbn;
        repeat split; try done; first [by rewrite <-!app_assoc | logged].
    + repeat split; try done; first [by rewrite <-!app_assoc | logged].
Qed.

Lemma Git_commit_tolerant E s wd st msg :
  git_bound E = true →
  self_client s = Some (GitClient wd) →
  git_status E wd = Ret st →
  ok_or_git_error
    (git_commit E wd (Py.fmt ("-am " +:+ dq +:+ "%s" +:+ dq) [completemsg E msg])) →
  ok_or_git_error (git_push E wd) →
  outcome (GitRepository_commit E msg) s = Ret ().
Proof.
  intros Hb Hc Hst Hcm Hpu.
  unfold outcome, GitRepository_commit.
  unfold git_call_status, git_call_commit, git_call_push, git_cwd, log_warning, log_debug.
  munfold. mcbn. rewrite Hc. mcbn. rewrite Hst. mcbn. rewrite Hb. mcbn.
  destruct (git_commit E wd _) as [[]|[c m]]; mcbn.
  - destruct (git_push E wd) as [info|[c' m']]; mcbn; [done|].
    cbn in Hpu. subst c'. isinstance_norm. by mcbn.
  - cbn in Hcm. subst c. isinstance_norm. mcbn.
    destruct (git_push E wd) as [info|[c' m']]; mcbn; [done|].
    cbn in Hpu. subst c'. isinstance_norm. by mcbn.
Qed.

Lemma Git_commit_failures_logged E s wd st msg :
  git_bound E = true →
  self_client s = Some (GitClient wd) →
  git_status E wd = Ret st →
  let s' := state_of (GitRepository_commit E msg) s in
  (∀ e, git_commit E wd (Py.fmt ("-am " +:+ dq +:+ "%s" +:+ dq) [completemsg E msg])
        = Raise e →
        exn_cls e = GitCommandError →
        (WARNING,
         Py.fmt ("Commit from working copy %s (msg: %s) failed, empty commit?" +:+ nl +:+ "%s")
                [str_opt (self_wc s); str_opt msg; str_exn e]) ∈ log s')
  ∧ (∀ e, ok_or_git_error
            (git_commit E wd (Py.fmt ("-am " +:+ dq +:+ "%s" +:+ dq) [completemsg E msg])) →
          git_push E wd = Raise e →
          exn_cls e = GitCommandError →
          (WARNING,
           Py.fmt "Push from working copy %s to remote %s (msg: %s) failed: %s"
                  [str_opt (self_wc s); self_repo s; str_opt msg; str_exn e]) ∈ log s').
Proof.
  intros Hb Hc Hst s'. unfold s', state_of, GitRepository_commit.
  unfold git_call_status, git_call_commit, git_call_push, git_cwd, log_warning, log_debug.
  munfold. mcbn. rewrite Hc. mcbn. rewrite Hst. mcbn. rewrite Hb. mcbn.
  split.
  - intros [c m] -> Hcls. cbn in Hcls. subst c. isinstance_norm. mcbn.
    destruct (git_push E wd) as [info|[c' m']]; mcbn.
    + apply logged_before, logged_last.
    + destruct (isinstance _ _); mcbn; [apply logged_before|]; apply logged_last.
  - intros [c m] Hcm -> Hcls. cbn in Hcls. subst c.
    destruct (git_commit E wd _) as [[]|[c' m']]; mcbn.
    + isinstance_norm. mcbn. apply logged_last.
    + cbn in Hcm. subst c'. isinstance_norm. mcbn. apply logged_last.
Qed.

(** After a clone that failed with [GitCommandError], whatever the later
    steps do, [create_working_copy] does not raise a [GitCommandError]. *)
Lemma Git_create_working_copy_no_git_error L E s w e e' :
  git_bound E = true →
  self_wc s = Some w →
  git_Git E (Some w) = Ret () →
  git_clone E (Some w) (self_repo s) = Raise e →
  exn_cls e = GitCommandError →
  outcome (GitRepository_create_working_copy L E) s = Raise e' →
  exn_cls e' ≠ GitCommandError.
Proof.
  intros Hb Hw HG Hc He.
  unfold outcome, GitRepository_create_working_copy.
  unfold new_Git, git_call_clone, git_call_pull, git_cwd, log_warning, log_debug,
    log_error, log_exception.
  munfold. rewrite Hb, Hw, HG. mcbn. rewrite Hc. mcbn.
  destruct e as [c m]. cbn in He. subst c. isinstance_norm. mcbn.
  destruct (git_Git E (Some (Py.join2 w "UNKNOWN"))) as [[]|[c1 m1]]; mcbn.
  - destruct (git_pull E (Some (Py.join2 w "UNKNOWN"))) as [res|[c2 m2]]; mcbn; [done|].
    destruct c2; isinstance_norm; mcbn;
      try destruct (exception_raises L); mcbn; intros [= <-]; done.
  - destruct c1; isinstance_norm; mcbn; try (intros [= <-]; done);
      (destruct (error_raises L); mcbn; [intros [= <-]; done|]);
      (destruct (self_client s) as [[wd|]|]; mcbn; try (intros [= <-]; done));
      (destruct (git_pull E wd) as [res|[c2 m2]]; mcbn; [done|]);
      destruct c2; isinstance_norm; mcbn;
      try destruct (exception_raises L); mcbn; intros [= <-]; done.
Qed.

(** C8, as the code has it.  A clone that fails with [GitCommandError] is
    logged as a warning and is never what [create_working_copy] raises: the
    method goes on with the directory [UNKNOWN] below the temporary
    directory and pulls there, and the pull decides: the method returns when
    the pull succeeds, and a pull that fails with [GitCommandError] or
    [OSError] goes to [log.exception], so the method raises when
    [log.exception] does.  In [commit], a commit step and a push step that
    fail with [GitCommandError] are logged as warnings and the method
    returns. *)
Theorem git_sync_failures_reported L E :
  (∀ s w e,
     git_bound E = true →
     self_wc s = Some w →
     git_Git E (Some w) = Ret () →
     git_clone E (Some w) (self_repo s) = Raise e →
     exn_cls e = GitCommandError →
     let wc := Py.join2 w "UNKNOWN" in
     let s' := state_of (create_working_copy L E Git) s in
     (∀ e', outcome (create_working_copy L E Git) s = Raise e' →
            exn_cls e' ≠ GitCommandError)
     ∧ (git_Git E (Some wc) = Ret () →
        (WARNING,
         Py.fmt "Git local repo initialization failed, it might already exist: %s"
                [str_exn e]) ∈ log s'
        ∧ self_wc s' = Some wc
        ∧ trace s' = trace s ++ [GitClone (Some w) (self_repo s); GitPull (Some wc)]
        ∧ outcome (create_working_copy L E Git) s
          = match git_pull E (Some wc) with
            | Ret _ => Ret ()
            | Raise e' =>
                if isinstance e' GitCommandError || isinstance e' OSError
                then exception_outcome L
                       (Py.fmt "pull in working copy %s went wrong: %s" [wc; str_exn e'])
                else Raise e'
            end))
  ∧ (∀ s wd st msg,
       git_bound E = true →
       self_client s = Some (GitClient wd) →
       git_status E wd = Ret st →
       ok_or_git_error
         (git_commit E wd (Py.fmt ("-am " +:+ dq +:+ "%s" +:+ dq) [completemsg E msg])) →
       ok_or_git_error (git_push E wd) →
       outcome (commit L E Git msg) s = Ret ()
       ∧ (∀ e, git_commit E wd
                 (Py.fmt ("-am " +:+ dq +:+ "%s" +:+ dq) [completemsg E msg]) = Raise e →
               (WARNING,
                Py.fmt ("Commit from working copy %s (msg: %s) failed, empty commit?"
                        +:+ nl +:+ "%s")
                       [str_opt (self_wc s); str_opt msg; str_exn e])
               ∈ log (state_of (commit L E Git msg) s))
       ∧ (∀ e, git_push E wd = Raise e →
               (WARNING,
                Py.fmt "Push from working copy %s to remote %s (msg: %s) failed: %s"
                       [str_opt (self_wc s); self_repo s; str_opt msg; str_exn e])
               ∈ log (state_of (commit L E Git msg) s))).
Proof.
  split.
  - intros s w e Hb Hw HG Hc He wc s'. unfold s', create_working_copy. split.
    { intros e'. by eapply Git_create_working_copy_no_git_error. }
    intros HG'.
    destruct (Git_create_working_copy_clone_failed L E s w e)
      as (Ho & Hwc & _ & Htr & Hlog); try done.
  - intros s wd st msg Hb Hc Hst Hcm Hpu. unfold commit.
    split; [by eapply Git_commit_tolerant|].
    destruct (Git_commit_failures_logged E s wd st msg Hb Hc Hst) as [H1 H2].
    split.
    + intros e He. apply H1; [done|]. by rewrite He in Hcm.
    + intros e He. apply H2; [done..|]. by rewrite He in Hpu.
Qed.

Lemma git_sync_failures_reported_witness :
  (let s := state_of (setup_repo strict env_unreachable Git) git_repo0 in
   outcome (create_working_copy strict env_unreachable Git) s
   = exception_outcome strict
       (Py.fmt "pull in working copy %s went wrong: %s"
               [Py.join2 "/tmp/git-wc-x1" "UNKNOWN"; "[Errno 2] No such file or directory"]))
  ∧ outcome (commit strict env_offline Git (Some "gcc 4.8")) git_repo1 = Ret ().
Proof.
  split.
  - intros s.
    destruct (proj1 (git_sync_failures_reported strict env_unreachable) s
                "/tmp/git-wc-x1" (Exn GitCommandError "could not resolve host"))
      as [_ H]; [vm_compute; reflexivity ..|].
    destruct H as (_ & _ & _ & H); [vm_compute; reflexivity|]. exact H.
  - apply (proj2 (git_sync_failures_reported strict env_offline) git_repo1
             (Some "/tmp/git-wc-x1/easybuild") "nothing to commit" (Some "gcc 4.8"));
      vm_compute; reflexivity.
Defined.

(** C8 fails for the clone: in a session where the remote is out of reach
    the clone fails, [self.wc] is moved to a directory [UNKNOWN] that was
    never created, the pull there fails, and [create_working_copy], and with
    it the constructor, raises [EasyBuildError]. *)
Lemma git_clone_failure_raises :
  let s := state_of (setup_repo strict env_unreachable Git) git_repo0 in
  let m := create_working_copy strict env_unreachable Git in
  git_clone env_unreachable (self_wc s) (self_repo s)
  = Raise (Exn GitCommandError "could not resolve host")
  ∧ self_wc (state_of m s) = Some "/tmp/git-wc-x1/UNKNOWN"
  ∧ Os.isdir (fs (state_of m s)) "/tmp/git-wc-x1/UNKNOWN" = false
  ∧ outcome m s
    = Raise (Exn EasyBuildError
               ("pull in working copy /tmp/git-wc-x1/UNKNOWN went wrong: "
                +:+ "[Errno 2] No such file or directory"))
  ∧ returns (outcome (new strict env_unreachable Git "git@example.org:easybuild.git" "")
                     (fresh fs0 ["x1"])) = false.
Proof. vm_compute. repeat split; reflexivity. Qed.

(** ** [SvnRepository.create_working_copy] *)

Lemma mkdtemp_frame E pre s s' r :
  tempfile_mkdtemp E pre s = (s', r) →
  self_repo s' = self_repo s ∧ self_client s' = self_client s ∧ trace s' = trace s.
Proof.
  unfold tempfile_mkdtemp.
  destruct (Os.mkdtemp (fs s) (gettempdir E) pre (tmp_names s)) as [[f rest] r'].
  intros [= <- <-]. repeat split; reflexivity.
Qed.

(** C9.  With a client at hand, a temporary directory [wc] allocated and
    the target found by [info2]: when [update] returns a list whose first
    revision is [-1] the checkout of the target into [wc] is the next and
    last call on the client, and for any other first revision no checkout
    is made. *)
Theorem Svn_checkout_iff_sentinel L E s s1 wc r0 rs :
  pysvn_bound E = true →
  self_client s = Some SvnClient →
  tempfile_mkdtemp E "svn-wc-" s = (s1, Ret wc) →
  svn_info2 E (self_repo s) = Ret () →
  svn_update E wc = Ret (r0 :: rs) →
  trace (state_of (create_working_copy L E Svn) s)
  = trace s ++ [SvnInfo2 (self_repo s); SvnUpdate wc]
      ++ (if bool_decide (r0 = (-1)%Z) then [SvnCheckout (self_repo s) wc] else []).
Proof.
  intros Hb Hc Hm Hi Hu.
  destruct (mkdtemp_frame _ _ _ _ _ Hm) as (Hrepo & Hcl & Htr).
  unfold state_of, create_working_copy, SvnRepository_create_working_copy.
  unfold svn_call_info2, svn_call_update, svn_call_checkout, svn_client,
    log_debug, log_error, log_exception.
  munfold. rewrite Hm. mcbn. rewrite Hcl, Hc, Hrepo, Hi. mcbn.
  rewrite Hu. mcbn.
  rewrite (bool_decide_eq_false_2 (S (length rs) = 0)) by done. mcbn.
  destruct (bool_decide (r0 = (-1)%Z)); mcbn.
  - rewrite Hb. mcbn.
    destruct (svn_checkout E (self_repo s) wc) as [r|[c m]]; mcbn.
    + by rewrite Htr, <-!app_assoc.
    + destruct (isinstance _ _); mcbn; [|by rewrite Htr, <-!app_assoc].
      destruct (exception_raises L); mcbn; by rewrite Htr, <-!app_assoc.
  - by rewrite Htr, <-!app_assoc.
Qed.

Lemma Svn_checkout_iff_sentinel_witness :
  trace svn_repo2
  = [SvnInfo2 "http://svn.example.org/repo/sub"; SvnUpdate "/tmp/svn-wc-x1";
     SvnCheckout "http://svn.example.org/repo/sub" "/tmp/svn-wc-x1"].
Proof.
  apply (Svn_checkout_iff_sentinel strict env_ok svn_repo1
           (state_of (tempfile_mkdtemp env_ok "svn-wc-") svn_repo1) "/tmp/svn-wc-x1" (-1)%Z []);
    reflexivity.
Defined.

(** When [update] finds revision 4 no checkout follows. *)
Example Svn_update_without_checkout :
  trace (state_of (create_working_copy strict env_offline Svn) svn_repo1)
  = [SvnInfo2 "http://svn.example.org/repo/sub"; SvnUpdate "/tmp/svn-wc-x1"].
Proof. vm_compute. reflexivity. Qed.

(** ** [SvnRepository.add_easyconfig] *)

(** C10.  After the record is written, the path is added to version control
    exactly when its status is not versioned; afterwards it is versioned,
    so that the next call finds it so and adds nothing. *)
Theorem Svn_add_iff_not_versioned L E Stats sts s s1 cfg name version stats append dest :
  FileRepository_add_easyconfig L E Stats sts cfg name version stats append s
    = (s1, Ret dest) →
  self_client s = Some SvnClient →
  let s' := state_of (add_easyconfig L E Stats sts Svn cfg name version stats append) s in
  trace s'
  = trace s ++ [SvnStatus dest; SvnStatus dest]
      ++ (if bool_decide (Py.components dest ∈ svn_versioned s) then []
          else [SvnAdd dest])
  ∧ Py.components dest ∈ svn_versioned s'.
Proof.
  intros H Hc s'.
  pose proof (File_add_easyconfig_frame _ _ _ _ _ _ _ _ _ _ _ _ H)
    as (_ & _ & _ & Hcl & Hv & Htr).
  assert (Hd : dest ≠ "").
  { apply File_add_easyconfig_returned in H as (fp & _ & _ & _ & -> & _).
    rewrite <-fmt_eb. apply dest_nonempty. }
  unfold s', state_of, add_easyconfig, SvnRepository_add_easyconfig.
  unfold svn_call_status, svn_call_add, svn_client, log_debug.
  munfold. rewrite H. mcbn.
  rewrite (bool_decide_eq_false_2 _ Hd). mcbn. rewrite Hcl, Hc. mcbn.
  rewrite Hv.
  destruct (decide (Py.components dest ∈ svn_versioned s)) as [Hin|Hnin].
  - rewrite !(bool_decide_eq_true_2 _ Hin). mcbn.
    rewrite Htr, Hv, <-!app_assoc. done.
  - rewrite !(bool_decide_eq_false_2 _ Hnin). mcbn. rewrite Hv.
    rewrite !(bool_decide_eq_false_2 _ Hnin). mcbn.
    rewrite Htr, <-!app_assoc. split; [done|]. apply elem_of_union. left. by apply elem_of_singleton.
Qed.

Lemma Svn_add_iff_not_versioned_witness :
  let m := add_easyconfig strict env_ok string id Svn "/src/gcc.eb" "gcc" "4.8"
             "{'time': 120}" false in
  let s' := state_of m svn_repo2 in
  trace s'
  = trace svn_repo2
      ++ [SvnStatus "/tmp/svn-wc-x1/gcc/4.8.eb"; SvnStatus "/tmp/svn-wc-x1/gcc/4.8.eb";
          SvnAdd "/tmp/svn-wc-x1/gcc/4.8.eb"]
  ∧ Py.components "/tmp/svn-wc-x1/gcc/4.8.eb" ∈ svn_versioned s'.
Proof.
  apply (Svn_add_iff_not_versioned strict env_ok string id svn_repo2
           (state_of (FileRepository_add_easyconfig strict env_ok string id
                        "/src/gcc.eb" "gcc" "4.8" "{'time': 120}" false) svn_repo2)
           "/src/gcc.eb" "gcc" "4.8" "{'time': 120}" false "/tmp/svn-wc-x1/gcc/4.8.eb");
    vm_compute; reflexivity.
Defined.

(** A second record of the same package: the path is tracked by then and
    is not added again. *)
Example Svn_second_add_easyconfig :
  let m1 := add_easyconfig strict env_ok string id Svn "/src/gcc.eb" "gcc" "4.8"
              "{'time': 120}" false in
  let m2 := add_easyconfig strict env_ok string id Svn "/src/gcc.eb" "gcc" "4.8"
              "{'time': 90}" true in
  trace (state_of m2 (state_of m1 svn_repo2))
  = trace (state_of m1 svn_repo2)
      ++ [SvnStatus "/tmp/svn-wc-x1/gcc/4.8.eb"; SvnStatus "/tmp/svn-wc-x1/gcc/4.8.eb"].
Proof. vm_compute. reflexivity. Qed.

(** * Further properties of the module *)

(** ** The constructor of [FileRepository] *)

(** X1.  When the constructor of [FileRepository] returns, the object is
    bound to the root it was given, its working copy is that root, the root
    and the subdirectory below it are directories, no file was touched and
    every directory that was there is still there. *)
Theorem File_new_postcondition L E root subdir s s' :
  new L E File root subdir s = (s', Ret ()) →
  self_repo s' = root ∧ self_subdir s' = subdir ∧ self_wc s' = Some root
  ∧ self_client s' = self_client s
  ∧ Os.isdir (fs s') root = true
  ∧ Os.isdir (fs s') (Py.path_join root [subdir]) = true
  ∧ files (fs s') = files (fs s)
  ∧ (∀ q, Os.isdir (fs s) q = true → Os.isdir (fs s') q = true).
Proof.
  unfold new, Repository_init, setup_repo, create_working_copy,
    FileRepository_setup_repo, FileRepository_create_working_copy,
    os_path_isdir, os_makedirs.
  munfold. mcbn. intros H.
  destruct (Os.isdir (fs s) root) eqn:Hd; mcbn.
  - destruct (Os.isdir (fs s) (Py.path_join root [subdir])) eqn:Hd'; mcbn.
    + injection H as <-. repeat split; done.
    + destruct (Os.makedirs (fs s) (Py.path_join root [subdir])) as [f [[]|e]] eqn:Hm;
        mcbn; [|done].
      injection H as <-. mcbn.
      pose proof (makedirs_inv _ _ _ Hm) as [_ ->].
      repeat split; eauto using makedirs_mono, makedirs_isdir.
  - destruct (Os.makedirs (fs s) root) as [f [[]|e]] eqn:Hm; mcbn; [|done].
    pose proof (makedirs_inv _ _ _ Hm) as [_ Hf].
    destruct (Os.isdir f (Py.path_join root [subdir])) eqn:Hd'; mcbn.
    + injection H as <-. mcbn. subst f.
      repeat split; eauto using makedirs_mono, makedirs_isdir.
    + destruct (Os.makedirs f (Py.path_join root [subdir])) as [f2 [[]|e]] eqn:Hm2;
        mcbn; [|done].
      injection H as <-. mcbn.
      pose proof (makedirs_inv _ _ _ Hm2) as [_ Hf2]. 
      repeat split; eauto using makedirs_mono, makedirs_isdir.
      by subst.
Qed.

Lemma File_new_postcondition_witness :
  self_wc file_repo1 = Some "/tmp/repo"
  ∧ Os.isdir (fs file_repo1) "/tmp/repo" = true
  ∧ Os.isdir (fs file_repo1) (Py.path_join "/tmp/repo" [""]) = true.
Proof.
  destruct (File_new_postcondition strict env_ok "/tmp/repo" "" (fresh fs0 []) file_repo1)
    as (_ & _ & H3 & _ & H5 & H6 & _); [vm_compute; reflexivity|].
  split; [exact H3|]. split; [exact H5|exact H6].
Defined.

(** ** More on [FileRepository.add_easyconfig] and [get_buildstats] *)

Section FileAddMore.
Variable L : Logger.
Variable E : Env.
Variable Stats : Type.
Variable sts : Stats → string.

Abbreviation File_add' := (FileRepository_add_easyconfig L E Stats sts).

(** X4.  When the easyconfig file cannot be read, the record file has been
    opened for writing already: it is left with the header line as its whole
    content (the text it held before is gone), the failure is logged at
    exception level, and the call raises when [log.exception] raises and
    returns the path otherwise. *)
Theorem add_easyconfig_unreadable_cfg s cfg name version stats previous full_path f1 f2 e :
  path_join_opt (self_wc s) [self_subdir s; name] = Ret full_path →
  let dest := Py.path_join full_path [version +:+ ".eb"] in
  prepared (fs s) full_path = (f1, Ret ()) →
  Os.open_w f1 dest = (f2, Ret ()) →
  Os.read f2 cfg = Raise e →
  let s' := state_of (File_add' cfg name version stats previous) s in
  Os.read (fs s') dest = Ret (header E)
  ∧ log s' = log s ++ [(EXCEPTION, copy_failed cfg dest s e)]
  ∧ outcome (File_add' cfg name version stats previous) s
    = if exception_raises L
      then Raise (Exn EasyBuildError (copy_failed cfg dest s e))
      else Ret dest.
Proof.
  intros Hp dest Hprep Ho Hr s'. unfold s', state_of, outcome.
  rewrite (File_add_easyconfig_unfold _ _ _ _ _ _ _ _ _ _ _ Hp). fold dest.
  rewrite Hprep, Ho, Hr. unfold log_exception. munfold. mcbn.
  destruct (exception_raises L); mcbn;
    (split; [unfold Os.read, Os.flush; cbn; by rewrite lookup_insert_eq|done]).
Qed.

(** X5.  The call of [os.makedirs] is outside the [try] block: when the
    directory of the package is not there and cannot be created, the
    [OSError] reaches the caller, nothing is written and nothing is
    logged. *)
Theorem add_easyconfig_makedirs_fails s cfg name version stats previous full_path :
  path_join_opt (self_wc s) [self_subdir s; name] = Ret full_path →
  Os.isdir (fs s) full_path = false →
  returns (Os.makedirs (fs s) full_path).2 = false →
  let s' := state_of (File_add' cfg name version stats previous) s in
  outcome (File_add' cfg name version stats previous) s = Raise (Exn OSError full_path)
  ∧ fs s' = fs s ∧ log s' = log s.
Proof.
  intros Hp Hd Hm s'. unfold s', state_of, outcome.
  rewrite (File_add_easyconfig_unfold _ _ _ _ _ _ _ _ _ _ _ Hp).
  unfold prepared. rewrite Hd. revert Hm. unfold Os.makedirs.
  destruct (_ || _); [|done]. done.
Qed.

(** X3.  Whatever its outcome, [add_easyconfig] leaves every file other
    than the record file with the content it had (or absent), and every
    directory that was there is still there. *)
Theorem add_easyconfig_frame_fs s s' r cfg name version stats previous full_path :
  path_join_opt (self_wc s) [self_subdir s; name] = Ret full_path →
  File_add' cfg name version stats previous s = (s', r) →
  (∀ q, Py.components q ≠ Py.components (Py.path_join full_path [version +:+ ".eb"]) →
        Os.read (fs s') q = Os.read (fs s) q)
  ∧ (∀ q, Os.isdir (fs s) q = true → Os.isdir (fs s') q = true).
Proof.
  intros Hp. rewrite (File_add_easyconfig_unfold _ _ _ _ _ _ _ _ _ _ _ Hp).
  set (dest := Py.path_join full_path [version +:+ ".eb"]).
  unfold log_exception. munfold.
  destruct (prepared (fs s) full_path) as [f1 [[]|e1]] eqn:Hprep.
  2:{ intros [= <- <-]. mcbn. revert Hprep. unfold prepared.
      destruct (Os.isdir (fs s) full_path); [done|]. unfold Os.makedirs.
      destruct (_ || _); [|done]. by intros [= <-]. }
  apply prepared_inv in Hprep as (_ & Hf & Hmono).
  assert (Hread : ∀ f2 buf q, Py.components q ≠ Py.components dest →
            files f2 = <[Py.components dest := ""]> (files f1)
            ∨ files f2 = files f1 →
            Os.read (Os.flush f2 dest buf) q = Os.read (fs s) q).
  { intros f2 buf q Hq Hf2. unfold Os.read, Os.flush. cbn.
    rewrite lookup_insert_ne by done.
    destruct Hf2 as [-> | ->]; [rewrite lookup_insert_ne by done|]; by rewrite Hf. }
  destruct (Os.open_w f1 dest) as [f2 [[]|e2]] eqn:Ho.
  - pose proof (open_w_inv _ _ _ Ho) as Hf2.
    assert (Hd2 : dirs f2 = dirs f1) by (by subst f2).
    assert (Hfl : files f2 = <[Py.components dest := ""]> (files f1)) by (by subst f2).
    destruct (Os.read f2 cfg) as [text|e3]; mcbn.
    + intros [= <- <-]. mcbn. split; [intros q Hq; apply Hread; auto|].
      intros q Hq. apply Hmono in Hq. unfold Os.isdir, Os.flush, Os.isdir_k in *.
      cbn. by rewrite Hd2.
    + destruct (exception_raises L); mcbn; intros [= <- <-]; mcbn;
        (split; [intros q Hq; apply Hread; auto|]);
        intros q Hq; apply Hmono in Hq; unfold Os.isdir, Os.flush, Os.isdir_k in *;
        cbn; by rewrite Hd2.
  - apply open_w_raise in Ho as [-> ->].
    destruct (exception_raises L); mcbn; intros [= <- <-]; mcbn;
      (split; [|done]); intros q Hq; unfold Os.read; by rewrite Hf.
Qed.

End FileAddMore.

Lemma add_easyconfig_unreadable_cfg_witness :
  let m := FileRepository_add_easyconfig strict env_ok string id
             "/src/missing.eb" "gcc" "4.8" "{'time': 90}" true in
  Os.read (fs file_repo2) "/tmp/repo/gcc/4.8.eb"
  = Ret (record_text env_ok string id ("name = 'gcc'" +:+ nl) "{'time': 120}" false)
  ∧ Os.read (fs (state_of m file_repo2)) "/tmp/repo/gcc/4.8.eb" = Ret (header env_ok)
  ∧ returns (outcome m file_repo2) = false.
Proof.
  intros m. split; [vm_compute; reflexivity|].
  destruct (add_easyconfig_unreadable_cfg strict env_ok string id file_repo2
              "/src/missing.eb" "gcc" "4.8" "{'time': 90}" true "/tmp/repo/gcc"
              (prepared (fs file_repo2) "/tmp/repo/gcc").1
              (Os.open_w (prepared (fs file_repo2) "/tmp/repo/gcc").1
                 "/tmp/repo/gcc/4.8.eb").1
              (Exn IOError "/src/missing.eb"))
    as (H1 & _ & H3); [vm_compute; reflexivity ..|].
  split; [exact H1|]. unfold m. rewrite H3. reflexivity.
Defined.

Lemma add_easyconfig_makedirs_fails_witness :
  outcome (FileRepository_add_easyconfig strict env_ok string id
             "/src/gcc.eb" "gcc.eb" "4.8" "{'time': 120}" false) file_repo_src
  = Raise (Exn OSError "/src/gcc.eb").
Proof.
  apply (add_easyconfig_makedirs_fails strict env_ok string id file_repo_src
           "/src/gcc.eb" "gcc.eb" "4.8" "{'time': 120}" false "/src/gcc.eb");
    vm_compute; reflexivity.
Defined.

Lemma add_easyconfig_frame_fs_witness :
  Os.read (fs file_repo2) "/src/gcc.eb" = Os.read (fs file_repo1) "/src/gcc.eb".
Proof.
  destruct (add_easyconfig_frame_fs strict env_ok string id file_repo1 file_repo2
              (Ret "/tmp/repo/gcc/4.8.eb") "/src/gcc.eb" "gcc" "4.8" "{'time': 120}"
              false "/tmp/repo/gcc") as [H _]; [vm_compute; reflexivity ..|].
  apply H. vm_compute. discriminate.
Defined.

(** X6.  [get_buildstats] only reads: for every name and version, and
    whatever the reader returns, the file system, the calls made on the
    clients and the attributes of the object are as before. *)
Theorem get_buildstats_read_only Stats parse b name version s :
  let s' := state_of (get_buildstats Stats parse b name version) s in
  fs s' = fs s ∧ trace s' = trace s ∧ svn_versioned s' = svn_versioned s
  ∧ self_repo s' = self_repo s ∧ self_subdir s' = self_subdir s
  ∧ self_wc s' = self_wc s ∧ self_client s' = self_client s.
Proof.
  unfold state_of, get_buildstats, FileRepository_get_buildstats.
  unfold os_path_isdir, os_path_isfile, log_debug, read. munfold.
  destruct (path_join_opt _ _) as [fp|e]; mcbn; [|done].
  destruct (Os.isdir (fs s) fp); mcbn; [|done].
  destruct (Os.isfile (fs s) _); mcbn; [|done].
  destruct (Os.read (fs s) _) as [text|e]; mcbn; [|done].
  by destruct (parse text).
Qed.

(** X2.  After a call of [add_easyconfig] that wrote its file,
    [get_buildstats] for the same name and version passes the text just
    written (header, easyconfig text, statistics block) to the reader,
    returns what the reader returns and leaves the state as it is. *)
Theorem add_easyconfig_then_get_buildstats L E Stats sts parse b s s1 cfg name version
    stats previous dest :
  FileRepository_add_easyconfig L E Stats sts cfg name version stats previous s
    = (s1, Ret dest) →
  log s1 = log s →
  ∃ text,
    Os.read (fs s1) dest = Ret (record_text E Stats sts text stats previous)
    ∧ get_buildstats Stats parse b name version s1
      = (s1, parse (record_text E Stats sts text stats previous)).
Proof.
  intros H Hlog.
  pose proof (File_add_easyconfig_frame _ _ _ _ _ _ _ _ _ _ _ _ H)
    as (_ & Hsub & Hwc & _).
  apply File_add_easyconfig_returned in H
    as (fp & f1 & f2 & Hp & -> & Hprep & [(text & Ho & Hr & ->)|(_ & m & Hm)]).
  2:{ rewrite Hm in Hlog. by apply app_singleton_neq in Hlog. }
  exists text.
  pose proof (prepared_inv _ _ _ Hprep) as (Hd & _ & _).
  destruct (written_record_found f1 f2 fp _
              (record_text E Stats sts text stats previous) Hd Ho) as (Hd' & Hf' & Hr').
  split; [done|]. by eapply get_buildstats_found.
Qed.

Lemma add_easyconfig_then_get_buildstats_witness :
  ∃ text,
    Os.read (fs file_repo2) "/tmp/repo/gcc/4.8.eb"
    = Ret (record_text env_ok string id text "{'time': 120}" false)
    ∧ get_buildstats string Reader.buildstats File "gcc" "4.8" file_repo2
      = (file_repo2,
         Reader.buildstats (record_text env_ok string id text "{'time': 120}" false)).
Proof.
  apply (add_easyconfig_then_get_buildstats strict env_ok string id Reader.buildstats
           File file_repo1 file_repo2 "/src/gcc.eb" "gcc" "4.8" "{'time': 120}" false
           "/tmp/repo/gcc/4.8.eb"); vm_compute; reflexivity.
Defined.

(** ** [GitRepository]: construction *)

(** X7.  When [setup_repo] of the git class returns, [self.wc] is the
    path [os.path.join(tempfile.gettempdir(), "git-wc-" + name)] for one of
    the names that [tempfile.mkdtemp] draws, a directory that was not there
    before and is there now; the files, the root and the client are as
    before. *)
Theorem Git_setup_repo_allocates L E s s' :
  GitRepository_setup_repo L E s = (s', Ret ()) →
  ∃ c wc, c ∈ tmp_names s
       ∧ wc = Py.join2 (gettempdir E) ("git-wc-" +:+ c)
       ∧ self_wc s' = Some wc
       ∧ Os.isdir (fs s) wc = false
       ∧ Os.isdir (fs s') wc = true
       ∧ files (fs s') = files (fs s)
       ∧ self_repo s' = self_repo s ∧ self_client s' = self_client s.
Proof.
  rewrite Git_setup_repo_unfold. cbv zeta.
  destruct (git_bound E || negb (exception_raises L)); [|done].
  destruct (tempfile_mkdtemp E "git-wc-" _) as [s1 [p|e]] eqn:Hm; [|done].
  intros [= <-].
  destruct (tempfile_mkdtemp_isdir _ _ _ _ _ Hm) as [Hd _].
  apply tempfile_mkdtemp_inv in Hm
    as (c & Hin & Hp & Hf & _ & ? & _ & ? & _ & _ & ? & _).
  exists c, p. split.
  { by destruct (git_bound E). }
  split; [done|]. split; [done|]. split.
  { unfold Os.isdir. destruct (git_bound E); cbn [fs add_log] in Hf;
      rewrite Hf; apply andb_false_r. }
  by destruct (git_bound E).
Qed.

Lemma Git_setup_repo_allocates_witness :
  ∃ c wc, c ∈ tmp_names git_repo0
       ∧ wc = Py.join2 (gettempdir env_ok) ("git-wc-" +:+ c)
       ∧ self_wc git_repo_setup = Some wc
       ∧ Os.isdir (fs git_repo0) wc = false
       ∧ Os.isdir (fs git_repo_setup) wc = true
       ∧ files (fs git_repo_setup) = files (fs git_repo0)
       ∧ self_repo git_repo_setup = self_repo git_repo0
       ∧ self_client git_repo_setup = self_client git_repo0.
Proof.
  apply (Git_setup_repo_allocates strict env_ok git_repo0 git_repo_setup).
  vm_compute. reflexivity.
Defined.

(** X8.  Without GitPython and with a logger that raises, the constructor
    stops before anything is allocated. *)
Theorem Git_new_without_git L E root subdir s :
  git_bound E = false →
  exception_raises L = true →
  let s' := state_of (new L E Git root subdir) s in
  returns (outcome (new L E Git root subdir) s) = false
  ∧ fs s' = fs s ∧ tmp_names s' = tmp_names s
  ∧ self_wc s' = None ∧ self_client s' = None ∧ trace s' = trace s.
Proof.
  intros Hb Hl s'. unfold s', state_of, outcome, new, GitRepository_init,
    Repository_init, setup_repo, GitRepository_setup_repo, log_exception.
  munfold. rewrite Hb. mcbn. isinstance_norm. mcbn. rewrite Hl. by mcbn.
Qed.

Lemma Git_new_without_git_witness :
  let m := new strict (with_git_bound false env_ok) Git
             "git@example.org:easybuild.git" "" in
  returns (outcome m (fresh fs0 ["x1"])) = false
  ∧ fs (state_of m (fresh fs0 ["x1"])) = fs0.
Proof.
  intros m.
  destruct (Git_new_without_git strict (with_git_bound false env_ok)
              "git@example.org:easybuild.git" "" (fresh fs0 ["x1"]))
    as (H1 & H2 & _); [reflexivity ..|]. split; [exact H1|exact H2].
Defined.

(** X9.  Without GitPython, whatever the logger does,
    [create_working_copy] raises [NameError]: the first use of [git] raises
    it, and the lookup of [git.GitCommandError] in the [except] clause that
    follows raises it again.  Nothing is cloned and the file system is as
    before. *)
Theorem Git_create_working_copy_without_git L E s :
  git_bound E = false →
  outcome (GitRepository_create_working_copy L E) s
  = Raise (Exn NameError "name is not defined")
  ∧ fs (state_of (GitRepository_create_working_copy L E) s) = fs s
  ∧ trace (state_of (GitRepository_create_working_copy L E) s) = trace s.
Proof.
  intros Hb. unfold outcome, state_of, GitRepository_create_working_copy, new_Git.
  munfold. rewrite Hb. by mcbn.
Qed.

Lemma Git_create_working_copy_without_git_witness :
  outcome (GitRepository_create_working_copy lenient (with_git_bound false env_ok))
          git_repo_setup
  = Raise (Exn NameError "name is not defined").
Proof.
  apply (Git_create_working_copy_without_git lenient (with_git_bound false env_ok)
           git_repo_setup). reflexivity.
Defined.

(** ** The name of the clone *)

Lemma string_app_nil_r (s : string) : s +:+ "" = s.
Proof.
  induction s as [|c s IH]; [done|]. change (String c (s +:+ "") = String c s).
  by rewrite IH.
Qed.

Lemma rev_app_rev_app a b c :
  String.rev_app (String.rev_app a b) c = String.rev_app b (a +:+ c).
Proof.
  revert b c. induction a as [|x a IH]; intros b c; [done|].
  cbn [String.rev_app]. rewrite IH. done.
Qed.

Lemma rev_rev_app s cur : String.rev (String.rev_app s cur) = String.rev_app cur s.
Proof. unfold String.rev. by rewrite rev_app_rev_app, string_app_nil_r. Qed.

Lemma rev_rev s : String.rev (String.rev s) = s.
Proof. unfold String.rev at 2. by rewrite rev_rev_app. Qed.

Lemma rev_app_eq a c : String.rev_app a c = String.rev a +:+ c.
Proof.
  revert c. induction a as [|x a IH]; intros c; [done|].
  unfold String.rev. cbn [String.rev_app]. rewrite !IH.
  by rewrite string_app_assoc.
Qed.

Lemma rev_app_distr a b : String.rev (a +:+ b) = String.rev b +:+ String.rev a.
Proof.
  revert b. induction a as [|x a IH]; intros b.
  - change ("" +:+ b) with b. change (String.rev "") with "". by rewrite string_app_nil_r.
  - change (String x a +:+ b) with (String x (a +:+ b)).
    unfold String.rev at 1 3. cbn [String.rev_app]. rewrite !rev_app_eq, IH.
    by rewrite string_app_assoc.
Qed.

Lemma all_chars_app P a b :
  all_chars P (a +:+ b) = all_chars P a && all_chars P b.
Proof.
  induction a as [|x a IH]; [done|].
  change (String x a +:+ b) with (String x (a +:+ b)). cbn. by rewrite IH, andb_assoc.
Qed.

Lemma split_go_no_sep sep cur s :
  all_chars (λ c, negb (bool_decide (c = sep))) s = true →
  Py.split_go sep cur s = [String.rev_app cur s].
Proof.
  revert cur. induction s as [|c s IH]; intros cur; cbn.
  - intros _. by rewrite <-(rev_rev_app "" cur).
  - intros [Hc Hs]%andb_true_iff. apply negb_true_iff in Hc. rewrite Hc.
    by rewrite IH.
Qed.

Lemma words_go_no_space cur s :
  all_chars (λ c, negb (Ascii.is_space c)) s = true →
  String.words_go (Some cur) s = [String.rev_app cur s].
Proof.
  revert cur. induction s as [|c s IH]; intros cur; cbn [String.words_go all_chars].
  - intros _. cbn. by rewrite <-(rev_rev_app "" cur).
  - intros [Hc Hs]%andb_true_iff. apply negb_true_iff in Hc. rewrite Hc.
    cbn [from_option]. by rewrite IH.
Qed.

Lemma lstrip_other c x s : x ≠ c → Py.lstrip c (String x s) = String x s.
Proof. intros H. cbn. by rewrite bool_decide_eq_false_2. Qed.

Lemma lstrip_length c s : String.length (Py.lstrip c s) ≤ String.length s.
Proof.
  induction s as [|x s IH]; cbn; [lia|]. destruct (bool_decide _); cbn; lia.
Qed.

(** X10.  From an output of [git clone] whose first line is
    [Cloning into '<name>'...], the expression
    [out.split("\n")[0].split()[-1].strip(".").strip("'")] gives [<name>],
    for every name without white space and without a quote at either end:
    this is the name that [create_working_copy] reads off the output of
    [git clone]. *)
Theorem reponame_of_cloning_into name rest :
  all_chars (λ c, negb (Ascii.is_space c)) name = true →
  Py.lstrip "'"%char name = name →
  Py.rstrip "'"%char name = name →
  name ≠ "" →
  reponame_of ("Cloning into '" +:+ name +:+ "'..." +:+ nl +:+ rest) = Ret name.
Proof.
  intros Hsp Hl Hr Hne. unfold reponame_of.
  assert (Hnl : all_chars (λ c, negb (bool_decide (c = "010"%char)))
                  ("Cloning into '" +:+ name +:+ "'...") = true).
  { rewrite !all_chars_app. apply andb_true_iff. split; [done|].
    apply andb_true_iff. split; [|done].
    clear -Hsp. induction name as [|c name IH]; [done|]. cbn in *.
    apply andb_true_iff in Hsp as [Hc Hs]. rewrite IH by done.
    rewrite andb_true_r. apply negb_true_iff, bool_decide_eq_false. intros ->. done. }
  assert (Hline : hd "" (Py.split "010"%char
                          ("Cloning into '" +:+ name +:+ "'..." +:+ nl +:+ rest))
                  = "Cloning into '" +:+ name +:+ "'...").
  { unfold Py.split.
    replace ("Cloning into '" +:+ name +:+ "'..." +:+ nl +:+ rest)
      with (("Cloning into '" +:+ name +:+ "'...") +:+ String "010"%char rest)
      by (by rewrite !string_app_assoc).
    rewrite split_go_app, split_go_no_sep by done. done. }
  rewrite Hline.
  assert (Hw : Py.split_ws ("Cloning into '" +:+ name +:+ "'...")
               = ["Cloning"; "into"; "'" +:+ name +:+ "'..."]).
  { unfold Py.split_ws, String.words.
    change (String.words_go None ("Cloning into '" +:+ name +:+ "'..."))
      with (["Cloning"; "into"] ++ String.words_go (Some "'") (name +:+ "'...")).
    rewrite words_go_no_space; [done|].
    rewrite all_chars_app, Hsp. done. }
  rewrite Hw. cbn [last]. f_equal.
  assert (H1 : Py.strip "."%char ("'" +:+ name +:+ "'...") = "'" +:+ name +:+ "'").
  { unfold Py.strip, Py.rstrip.
    change ("'" +:+ name +:+ "'...") with (String "'"%char (name +:+ "'...")).
    rewrite lstrip_other by done.
    change (String "'"%char (name +:+ "'...")) with (("'" +:+ name) +:+ "'...").
    rewrite rev_app_distr.
    change (String.rev "'..." +:+ String.rev ("'" +:+ name))
      with (String "."%char (String "."%char (String "."%char
              (String "'"%char (String.rev ("'" +:+ name)))))).
    cbn [Py.lstrip]. rewrite !bool_decide_eq_true_2 by done.
    rewrite bool_decide_eq_false_2 by done.
    change (String "'"%char (String.rev ("'" +:+ name)))
      with (String.rev "'" +:+ String.rev ("'" +:+ name)).
    by rewrite <-rev_app_distr, rev_rev. }
  rewrite H1. unfold Py.strip.
  change ("'" +:+ name +:+ "'") with (String "'"%char (name +:+ "'")).
  cbn [Py.lstrip]. rewrite bool_decide_eq_true_2 by done.
  assert (H2 : Py.lstrip "'"%char (name +:+ "'") = name +:+ "'").
  { destruct name as [|c name]; [done|].
    change (String c name +:+ "'") with (String c (name +:+ "'")).
    cbn in Hl |- *. destruct (bool_decide (c = "'"%char)) eqn:Hc; [|done].
    exfalso. apply (f_equal String.length) in Hl. cbn in Hl.
    pose proof (lstrip_length "'"%char name). lia. }
  rewrite H2. unfold Py.rstrip. rewrite rev_app_distr.
  change (String.rev "'" +:+ String.rev name) with (String "'"%char (String.rev name)).
  cbn [Py.lstrip]. rewrite bool_decide_eq_true_2 by done.
  unfold Py.rstrip in Hr. apply (f_equal String.rev) in Hr. rewrite rev_rev in Hr.
  by rewrite Hr, rev_rev.
Qed.

Lemma reponame_of_cloning_into_witness :
  reponame_of ("Cloning into '" +:+ "easybuild" +:+ "'..." +:+ nl
               +:+ "remote: Counting objects: 12, done.")
  = Ret "easybuild".
Proof.
  apply (reponame_of_cloning_into "easybuild" "remote: Counting objects: 12, done.");
    [reflexivity | reflexivity | reflexivity | discriminate].
Defined.

(** ** [GitRepository]: the working copy *)

(** X11.  When the clone succeeds, [create_working_copy] moves [self.wc]
    to the temporary directory joined with the name read off the first line
    of the output, binds the client to that path, and makes two calls:
    the clone in the temporary directory and the pull in the new path.  A
    pull that fails with [GitCommandError] or [OSError] goes to
    [log.exception]; any other exception of the pull is raised as it is. *)
Theorem Git_create_working_copy_cloned L E s tmp out d reponame :
  git_bound E = true →
  self_wc s = Some tmp →
  git_Git E (Some tmp) = Ret () →
  git_clone E (Some tmp) (self_repo s) = Ret (out, d) →
  reponame_of out = Ret reponame →
  git_Git E (Some (Py.join2 tmp reponame)) = Ret () →
  let wc := Py.join2 tmp reponame in
  let s' := state_of (GitRepository_create_working_copy L E) s in
  self_wc s' = Some wc
  ∧ self_client s' = Some (GitClient (Some wc))
  ∧ trace s' = trace s ++ [GitClone (Some tmp) (self_repo s); GitPull (Some wc)]
  ∧ Os.isdir_k (fs s') (Py.components (Py.join2 tmp d)) = true
  ∧ outcome (GitRepository_create_working_copy L E) s
    = match git_pull E (Some wc) with
      | Ret _ => Ret ()
      | Raise e =>
          if isinstance e GitCommandError || isinstance e OSError
          then exception_outcome L
                 (Py.fmt "pull in working copy %s went wrong: %s" [wc; str_exn e])
          else Raise e
      end.
Proof.
  intros Hb Hw HG Hc Hn HG' wc s'.
  unfold s', outcome, state_of, GitRepository_create_working_copy, exception_outcome.
  unfold new_Git, git_call_clone, git_call_pull, git_cwd, log_warning, log_debug,
    log_exception.
  munfold. rewrite Hb, Hw, HG. mcbn. rewrite Hc. mcbn. rewrite Hn. mcbn.
  rewrite path_join_opt_Some. change (Py.path_join tmp [reponame]) with wc.
  fold wc in HG'. mcbn. rewrite HG'. mcbn.
  assert (Hdir : ∀ f, Os.isdir_k (Os.add_dirs f (Py.components (Py.join2 tmp d)))
                        (Py.components (Py.join2 tmp d)) = true)
    by (intros; apply isdir_k_add_dirs_self).
  destruct (git_pull E (Some wc)) as [res|e]; mcbn.
  - rewrite <-!app_assoc. repeat split; first [done | apply Hdir].
  - rewrite orb_false_r.
    destruct (isinstance e GitCommandError || isinstance e OSError); mcbn.
    + destruct (exception_raises L); mcbn; rewrite <-!app_assoc;
        repeat split; first [done | apply Hdir].
    + rewrite <-!app_assoc. repeat split; first [done | apply Hdir].
Qed.

Lemma Git_create_working_copy_cloned_witness :
  let s' := state_of (GitRepository_create_working_copy strict env_ok) git_repo_setup in
  self_wc s' = Some (Py.join2 "/tmp/git-wc-x1" "easybuild")
  ∧ self_client s' = Some (GitClient (Some (Py.join2 "/tmp/git-wc-x1" "easybuild")))
  ∧ trace s'
    = trace git_repo_setup
      ++ [GitClone (Some "/tmp/git-wc-x1") (self_repo git_repo_setup);
          GitPull (Some (Py.join2 "/tmp/git-wc-x1" "easybuild"))].
Proof.
  intros s'.
  destruct (Git_create_working_copy_cloned strict env_ok git_repo_setup "/tmp/git-wc-x1"
              "Cloning into 'easybuild'..." "easybuild" "easybuild")
    as (H1 & H2 & H3 & _); [vm_compute; reflexivity ..|].
  split; [exact H1|]. split; [exact H2|exact H3].
Defined.

(** X12.  When the clone succeeds and the first line of its output holds
    no word (an empty output, say), the index [[-1]] raises [IndexError],
    which the [except git.GitCommandError] clause does not catch:
    [create_working_copy] raises it, [self.wc] stays at the temporary
    directory, no client is bound and no pull is made. *)
Theorem Git_create_working_copy_empty_output L E s tmp out d :
  git_bound E = true →
  self_wc s = Some tmp →
  git_Git E (Some tmp) = Ret () →
  git_clone E (Some tmp) (self_repo s) = Ret (out, d) →
  Py.split_ws (hd "" (Py.split "010"%char out)) = [] →
  let s' := state_of (GitRepository_create_working_copy L E) s in
  outcome (GitRepository_create_working_copy L E) s
  = Raise (Exn IndexError "list index out of range")
  ∧ self_wc s' = Some tmp ∧ self_client s' = self_client s
  ∧ trace s' = trace s ++ [GitClone (Some tmp) (self_repo s)].
Proof.
  intros Hb Hw HG Hc Hn s'.
  unfold s', outcome, state_of, GitRepository_create_working_copy.
  unfold new_Git, git_call_clone, log_warning, log_debug.
  munfold. rewrite Hb, Hw, HG. mcbn. rewrite Hc. mcbn.
  unfold reponame_of. rewrite Hn. mcbn. isinstance_norm. by mcbn.
Qed.

Lemma Git_create_working_copy_empty_output_witness :
  outcome (GitRepository_create_working_copy strict
             (with_git_clone (Ret ("", "easybuild")) env_ok)) git_repo_setup
  = Raise (Exn IndexError "list index out of range").
Proof.
  apply (Git_create_working_copy_empty_output strict
           (with_git_clone (Ret ("", "easybuild")) env_ok) git_repo_setup
           "/tmp/git-wc-x1" "" "easybuild"); vm_compute; reflexivity.
Defined.

(** ** [GitRepository]: records and commits *)

(** X13.  After the record is written, [add_easyconfig] of the git class
    makes one call on the client, [add] of the record file; when that call
    fails with [GitCommandError] a warning is logged.  Either way the method
    returns [None]. *)
Theorem Git_add_easyconfig_stages L E Stats sts s s1 wd cfg name version stats append dest :
  FileRepository_add_easyconfig L E Stats sts cfg name version stats append s
    = (s1, Ret dest) →
  self_client s = Some (GitClient wd) →
  git_bound E = true →
  ok_or_git_error (git_add E wd dest) →
  let m := GitRepository_add_easyconfig L E Stats sts cfg name version stats append in
  outcome m s = Ret None
  ∧ trace (state_of m s) = trace s ++ [GitAdd wd dest]
  ∧ (∀ e, git_add E wd dest = Raise e →
          log (state_of m s)
          = log s1 ++ [(WARNING, Py.fmt "adding %s to git failed: %s" [dest; str_exn e])]).
Proof.
  intros H Hc Hb Hadd m.
  pose proof (File_add_easyconfig_frame _ _ _ _ _ _ _ _ _ _ _ _ H)
    as (_ & _ & _ & Hcl & _ & Htr).
  assert (Hd : dest ≠ "").
  { apply File_add_easyconfig_returned in H as (fp & _ & _ & _ & -> & _).
    rewrite <-fmt_eb. apply dest_nonempty. }
  unfold m, outcome, state_of, GitRepository_add_easyconfig.
  unfold git_call_add, git_cwd, log_warning. munfold. rewrite H. mcbn.
  rewrite (bool_decide_eq_false_2 _ Hd). mcbn. rewrite Hcl, Hc. mcbn.
  destruct (git_add E wd dest) as [[]|[c msg]]; mcbn.
  - rewrite Htr. repeat split; try done.
  - cbn in Hadd. subst c. rewrite Hb. isinstance_norm. mcbn. rewrite Htr.
    repeat split; try done. by intros e [= <-].
Qed.

Lemma Git_add_easyconfig_stages_witness :
  let m := GitRepository_add_easyconfig strict env_ok string id "/src/gcc.eb" "gcc"
             "4.8" "{'time': 120}" false in
  outcome m git_repo1 = Ret None
  ∧ trace (state_of m git_repo1)
    = trace git_repo1
      ++ [GitAdd (Some "/tmp/git-wc-x1/easybuild") "/tmp/git-wc-x1/easybuild/gcc/4.8.eb"].
Proof.
  intros m.
  destruct (Git_add_easyconfig_stages strict env_ok string id git_repo1
              (state_of (FileRepository_add_easyconfig strict env_ok string id
                           "/src/gcc.eb" "gcc" "4.8" "{'time': 120}" false) git_repo1)
              (Some "/tmp/git-wc-x1/easybuild") "/src/gcc.eb" "gcc" "4.8"
              "{'time': 120}" false "/tmp/git-wc-x1/easybuild/gcc/4.8.eb")
    as (H1 & H2 & _); [vm_compute; reflexivity | reflexivity | reflexivity | exact I |].
  split; [exact H1|exact H2].
Defined.

(** X14.  [commit] of the git class calls [status], then [commit] with the
    argument [-am "EasyBuild-commit from <host> (time: <time>, user: <user>)
    <newline><msg>"] (a missing message prints as [None]), then [push]: the
    push is made also when the commit step failed with [GitCommandError].
    [self.wc] is as before. *)
Theorem Git_commit_calls E s wd st msg :
  self_client s = Some (GitClient wd) →
  git_bound E = true →
  git_status E wd = Ret st →
  ok_or_git_error
    (git_commit E wd (Py.fmt ("-am " +:+ dq +:+ "%s" +:+ dq) [completemsg E msg])) →
  ok_or_git_error (git_push E wd) →
  let s' := state_of (GitRepository_commit E msg) s in
  trace s'
  = trace s
    ++ [GitStatus wd;
        GitCommit wd
          ("-am " +:+ dq +:+ "EasyBuild-commit from " +:+ gethostname E
           +:+ " (time: " +:+ strftime E +:+ ", user: " +:+ getuser E +:+ ") " +:+ nl
           +:+ default "None" msg +:+ dq);
        GitPush wd]
  ∧ self_wc s' = self_wc s.
Proof.
  intros Hc Hb Hst Hcm Hpu s'. unfold s', state_of, GitRepository_commit.
  unfold git_call_status, git_call_commit, git_call_push, git_cwd, log_warning, log_debug.
  munfold. mcbn. rewrite Hc. mcbn. rewrite Hst. mcbn. rewrite Hb. mcbn.
  assert (Hmsg : Py.fmt ("-am " +:+ dq +:+ "%s" +:+ dq) [completemsg E msg]
                 = "-am " +:+ dq +:+ "EasyBuild-commit from " +:+ gethostname E
                   +:+ " (time: " +:+ strftime E +:+ ", user: " +:+ getuser E
                   +:+ ") " +:+ nl +:+ default "None" msg +:+ dq).
  { unfold completemsg, str_opt.
    transitivity ("-am " +:+ dq
                  +:+ ("EasyBuild-commit from " +:+ gethostname E +:+ " (time: "
                       +:+ strftime E +:+ ", user: " +:+ getuser E +:+ ") " +:+ nl
                       +:+ default "None" msg +:+ "") +:+ dq); [reflexivity|].
    rewrite !string_app_assoc. reflexivity. }
  rewrite <-Hmsg.
  destruct (git_commit E wd _) as [[]|[c m]]; mcbn.
  - destruct (git_push E wd) as [info|[c' m']]; mcbn;
      [by rewrite <-!app_assoc|].
    cbn in Hpu. subst c'. isinstance_norm. mcbn. by rewrite <-!app_assoc.
  - cbn in Hcm. subst c. isinstance_norm. mcbn.
    destruct (git_push E wd) as [info|[c' m']]; mcbn;
      [by rewrite <-!app_assoc|].
    cbn in Hpu. subst c'. isinstance_norm. mcbn. by rewrite <-!app_assoc.
Qed.

Lemma Git_commit_calls_witness :
  trace (state_of (GitRepository_commit env_offline (Some "gcc 4.8")) git_repo1)
  = trace git_repo1
    ++ [GitStatus (Some "/tmp/git-wc-x1/easybuild");
        GitCommit (Some "/tmp/git-wc-x1/easybuild")
          ("-am " +:+ dq +:+ "EasyBuild-commit from node1 (time: 2013-01-01_00-00-00, "
           +:+ "user: alice) " +:+ nl +:+ "gcc 4.8" +:+ dq);
        GitPush (Some "/tmp/git-wc-x1/easybuild")].
Proof.
  destruct (Git_commit_calls env_offline git_repo1 (Some "/tmp/git-wc-x1/easybuild")
              "nothing to commit" (Some "gcc 4.8")) as (H & _); [reflexivity ..|].
  exact H.
Defined.

(** X15.  The call of [status] in [commit] is not inside a [try]: when it
    raises, whatever the exception, [commit] raises it and makes neither the
    commit nor the push. *)
Theorem Git_commit_status_fails E s wd e msg :
  self_client s = Some (GitClient wd) →
  git_status E wd = Raise e →
  let s' := state_of (GitRepository_commit E msg) s in
  outcome (GitRepository_commit E msg) s = Raise e
  ∧ trace s' = trace s ++ [GitStatus wd].
Proof.
  intros Hc Hst s'. unfold s', outcome, state_of, GitRepository_commit.
  unfold git_call_status, git_cwd, log_debug.
  munfold. mcbn. rewrite Hc. mcbn. rewrite Hst. by mcbn.
Qed.

Lemma Git_commit_status_fails_witness :
  let E := with_git_status (Raise (Exn GitCommandError "not a git repository")) env_ok in
  outcome (GitRepository_commit E None) git_repo1
  = Raise (Exn GitCommandError "not a git repository")
  ∧ trace (state_of (GitRepository_commit E None) git_repo1)
    = trace git_repo1 ++ [GitStatus (Some "/tmp/git-wc-x1/easybuild")].
Proof.
  intros E.
  apply (Git_commit_status_fails E git_repo1 (Some "/tmp/git-wc-x1/easybuild")
           (Exn GitCommandError "not a git repository") None); reflexivity.
Defined.

(** ** [cleanup] *)

Lemma rmtree_removes f p f' :
  Os.rmtree f p = (f', Ret ()) →
  ∀ q, Py.components p `prefix_of` Py.components q →
       Os.isdir f' q = false ∧ Os.isfile f' q = false.
Proof.
  unfold Os.rmtree.
  destruct (Os.isdir f p && negb (bool_decide (Py.components p = []))) eqn:Hc;
    [|done].
  intros [= <-] q Hq.
  apply andb_true_iff in Hc as [_ Hne]. apply negb_true_iff, bool_decide_eq_false in Hne.
  split.
  - unfold Os.isdir, Os.isdir_k. cbn. apply andb_false_iff. right.
    apply orb_false_iff. split.
    + apply bool_decide_eq_false. intros Hq0. rewrite Hq0 in Hq.
      by apply prefix_nil_inv in Hq.
    + apply bool_decide_eq_false. intros [Hn _]%elem_of_filter. done.
  - unfold Os.isfile. cbn. apply bool_decide_eq_false. intros [x Hx].
    apply map_lookup_filter_Some in Hx as [_ Hx]. by apply Hx.
Qed.

(** X16.  When [self.wc] is a directory other than the root directory,
    [cleanup] of the git and svn classes returns and has removed it with
    all that is in it; every path that does not lie in it is a directory, or
    holds a file, exactly as before. *)
Theorem cleanup_removes_working_copy L b s wc :
  b ≠ File →
  self_wc s = Some wc →
  Os.isdir (fs s) wc = true →
  Py.components wc ≠ [] →
  let s' := state_of (cleanup L b) s in
  outcome (cleanup L b) s = Ret ()
  ∧ (∀ q, Py.components wc `prefix_of` Py.components q →
          Os.isdir (fs s') q = false ∧ Os.isfile (fs s') q = false)
  ∧ (∀ q, ¬ Py.components wc `prefix_of` Py.components q →
          Os.isdir (fs s') q = Os.isdir (fs s) q
          ∧ Os.read (fs s') q = Os.read (fs s) q).
Proof.
  intros Hb Hw Hd Hne s'.
  assert (Hrm : ∃ f', Os.rmtree (fs s) wc = (f', Ret ())
                      ∧ f' = mkFS (filter (λ d, ¬ Py.components wc `prefix_of` d)
                                          (dirs (fs s)))
                                  (filter (λ kv, ¬ Py.components wc `prefix_of` kv.1)
                                          (files (fs s)))).
  { unfold Os.rmtree. rewrite Hd, (bool_decide_eq_false_2 _ Hne). by eexists. }
  destruct Hrm as (f' & Hrm & Hf').
  assert (Hs' : outcome (cleanup L b) s = Ret () ∧ fs s' = f').
  { unfold s', outcome, state_of, cleanup, GitRepository_cleanup, SvnRepository_cleanup,
      rmtree2, log_info.
    destruct b; [done|..]; munfold; mcbn; rewrite Hw; mcbn; by rewrite Hrm. }
  destruct Hs' as [Ho ->]. split; [done|]. split.
  - exact (rmtree_removes _ _ _ Hrm).
  - intros q Hq. subst f'. unfold Os.isdir, Os.isdir_k, Os.read. cbn. split.
    + f_equal. f_equal. apply bool_decide_ext. rewrite elem_of_filter.
      split; [by intros [_ ?]|by intros ?; split].
    + destruct (files (fs s) !! Py.components q) as [x|] eqn:Hx.
      * erewrite (proj2 (map_lookup_filter_Some _ _ _ _)); [done|]. by split.
      * by rewrite map_lookup_filter_None_2; [|left].
Qed.

Lemma cleanup_removes_working_copy_witness :
  outcome (cleanup strict Git) git_repo1 = Ret ()
  ∧ Os.isdir (fs (state_of (cleanup strict Git) git_repo1)) "/tmp/git-wc-x1/easybuild"
    = false.
Proof.
  destruct (cleanup_removes_working_copy strict Git git_repo1 "/tmp/git-wc-x1/easybuild")
    as (H1 & H2 & _);
    [discriminate | reflexivity | vm_compute; reflexivity | vm_compute; discriminate |].
  split; [exact H1|]. by apply H2.
Defined.

(** ** [SvnRepository]: the working copy *)

(** X19.  When [update] fails with [ClientError], [create_working_copy] of
    the svn class never returns: [log.exception] raises, or else the next
    statement reads [res], which was never bound, and raises
    [UnboundLocalError].  No checkout is made. *)
Theorem Svn_create_working_copy_update_fails L E s s1 wc e :
  pysvn_bound E = true →
  self_client s = Some SvnClient →
  tempfile_mkdtemp E "svn-wc-" s = (s1, Ret wc) →
  svn_info2 E (self_repo s) = Ret () →
  svn_update E wc = Raise e →
  exn_cls e = ClientError →
  let s' := state_of (SvnRepository_create_working_copy L E) s in
  outcome (SvnRepository_create_working_copy L E) s
  = (if exception_raises L
     then Raise (Exn EasyBuildError (Py.fmt "Update in wc %s went wrong" [wc]))
     else Raise (Exn UnboundLocalError
                     "local variable 'res' referenced before assignment"))
  ∧ trace s' = trace s ++ [SvnInfo2 (self_repo s); SvnUpdate wc]
  ∧ self_wc s' = Some wc.
Proof.
  intros Hb Hc Hm Hi Hu He s'.
  destruct (mkdtemp_frame _ _ _ _ _ Hm) as (Hrepo & Hcl & Htr).
  unfold s', outcome, state_of, SvnRepository_create_working_copy.
  unfold svn_call_info2, svn_call_update, svn_client, log_debug, log_exception.
  munfold. rewrite Hm. mcbn. rewrite Hcl, Hc, Hrepo, Hi. mcbn. rewrite Hu. mcbn.
  rewrite Hb. mcbn. destruct e as [c m]. cbn in He. subst c. isinstance_norm. mcbn.
  destruct (exception_raises L); mcbn; by rewrite Htr, <-!app_assoc.
Qed.

Lemma Svn_create_working_copy_update_fails_witness :
  let E := with_svn_update (Raise (Exn ClientError "connection refused")) env_ok in
  outcome (SvnRepository_create_working_copy lenient E) svn_repo1
  = Raise (Exn UnboundLocalError "local variable 'res' referenced before assignment").
Proof.
  intros E.
  destruct (Svn_create_working_copy_update_fails lenient E svn_repo1
              (state_of (tempfile_mkdtemp env_ok "svn-wc-") svn_repo1) "/tmp/svn-wc-x1"
              (Exn ClientError "connection refused")) as (H1 & _); [reflexivity ..|].
  exact H1.
Defined.

(** X20.  When [update] returns an empty list, [create_working_copy] of
    the svn class never returns: [log.error] raises, or else [res[0]] raises
    [IndexError].  No checkout is made. *)
Theorem Svn_create_working_copy_empty_update L E s s1 wc :
  pysvn_bound E = true →
  self_client s = Some SvnClient →
  tempfile_mkdtemp E "svn-wc-" s = (s1, Ret wc) →
  svn_info2 E (self_repo s) = Ret () →
  svn_update E wc = Ret [] →
  let s' := state_of (SvnRepository_create_working_copy L E) s in
  outcome (SvnRepository_create_working_copy L E) s
  = (if error_raises L
     then Raise (Exn EasyBuildError
                     (Py.fmt "Update returned empy list (working copy: %s)" [wc]))
     else Raise (Exn IndexError "list index out of range"))
  ∧ trace s' = trace s ++ [SvnInfo2 (self_repo s); SvnUpdate wc].
Proof.
  intros Hb Hc Hm Hi Hu s'.
  destruct (mkdtemp_frame _ _ _ _ _ Hm) as (Hrepo & Hcl & Htr).
  unfold s', outcome, state_of, SvnRepository_create_working_copy.
  unfold svn_call_info2, svn_call_update, svn_client, log_debug, log_error.
  munfold. rewrite Hm. mcbn. rewrite Hcl, Hc, Hrepo, Hi. mcbn. rewrite Hu. mcbn.
  rewrite (bool_decide_eq_true_2 (0 = 0)) by done. mcbn.
  destruct (error_raises L); mcbn; by rewrite Htr, <-!app_assoc.
Qed.

Lemma Svn_create_working_copy_empty_update_witness :
  let E := with_svn_update (Ret []) env_ok in
  outcome (SvnRepository_create_working_copy lenient E) svn_repo1
  = Raise (Exn IndexError "list index out of range").
Proof.
  intros E.
  destruct (Svn_create_working_copy_empty_update lenient E svn_repo1
              (state_of (tempfile_mkdtemp env_ok "svn-wc-") svn_repo1) "/tmp/svn-wc-x1")
    as (H1 & _); [reflexivity ..|].
  exact H1.
Defined.

(** X18.  When [info2] fails with [ClientError] and [log.exception]
    raises, [create_working_copy] of the svn class stops there: [update] is
    not called; the temporary directory is allocated already and
    [self.wc] names it. *)
Theorem Svn_create_working_copy_info_fails L E s s1 wc e :
  pysvn_bound E = true →
  self_client s = Some SvnClient →
  tempfile_mkdtemp E "svn-wc-" s = (s1, Ret wc) →
  svn_info2 E (self_repo s) = Raise e →
  exn_cls e = ClientError →
  exception_raises L = true →
  let s' := state_of (SvnRepository_create_working_copy L E) s in
  outcome (SvnRepository_create_working_copy L E) s
  = Raise (Exn EasyBuildError (Py.fmt "Getting info from %s failed." [wc]))
  ∧ trace s' = trace s ++ [SvnInfo2 (self_repo s)]
  ∧ self_wc s' = Some wc
  ∧ Os.isdir_k (fs s') (Py.components wc) = true.
Proof.
  intros Hb Hc Hm Hi He Hl s'.
  destruct (mkdtemp_frame _ _ _ _ _ Hm) as (Hrepo & Hcl & Htr).
  pose proof (tempfile_mkdtemp_inv _ _ _ _ _ Hm) as (c & _ & _ & _ & Hd & _).
  unfold s', outcome, state_of, SvnRepository_create_working_copy.
  unfold svn_call_info2, svn_client, log_exception.
  munfold. rewrite Hm. mcbn. rewrite Hcl, Hc, Hrepo, Hi. mcbn.
  rewrite Hb. mcbn. destruct e as [c' m]. cbn in He. subst c'. isinstance_norm. mcbn.
  rewrite Hl. mcbn. by rewrite Htr.
Qed.

Lemma Svn_create_working_copy_info_fails_witness :
  let E := with_svn_info2 (Raise (Exn ClientError "no such target")) env_ok in
  outcome (SvnRepository_create_working_copy strict E) svn_repo1
  = Raise (Exn EasyBuildError "Getting info from /tmp/svn-wc-x1 failed.")
  ∧ trace (state_of (SvnRepository_create_working_copy strict E) svn_repo1)
    = [SvnInfo2 "http://svn.example.org/repo/sub"].
Proof.
  intros E.
  destruct (Svn_create_working_copy_info_fails strict E svn_repo1
              (state_of (tempfile_mkdtemp env_ok "svn-wc-") svn_repo1) "/tmp/svn-wc-x1"
              (Exn ClientError "no such target")) as (H1 & H2 & _); [reflexivity ..|].
  split; [exact H1|exact H2].
Defined.

(** Whatever the client answers, [create_working_copy] of the svn class
    leaves [self.wc] at the directory it allocated and the file system as the
    allocation left it. *)
Lemma Svn_create_working_copy_wc L E s s1 wc :
  tempfile_mkdtemp E "svn-wc-" s = (s1, Ret wc) →
  self_wc (state_of (SvnRepository_create_working_copy L E) s) = Some wc
  ∧ fs (state_of (SvnRepository_create_working_copy L E) s) = fs s1.
Proof.
  intros Hm. unfold state_of, SvnRepository_create_working_copy.
  unfold svn_call_info2, svn_call_update, svn_call_checkout, svn_client,
    log_debug, log_error, log_exception.
  munfold. rewrite Hm. mcbn.
  repeat (match goal with
          | |- context [match ?x with _ => _ end] =>
              lazymatch x with
              | context [match _ with _ => _ end] => fail
              | _ => destruct x eqn:?
              end
          end; mcbn); done.
Qed.

(** X17.  Whatever the client answered in [create_working_copy],
    [cleanup] of the svn class returns and removes the directory that
    [create_working_copy] allocated. *)
Theorem Svn_cleanup_removes_tmpdir L E s s1 wc :
  tempfile_mkdtemp E "svn-wc-" s = (s1, Ret wc) →
  let s2 := state_of (SvnRepository_create_working_copy L E) s in
  Os.isdir (fs s2) wc = true
  ∧ outcome (cleanup L Svn) s2 = Ret ()
  ∧ Os.isdir (fs (state_of (cleanup L Svn) s2)) wc = false.
Proof.
  intros Hm s2.
  destruct (Svn_create_working_copy_wc L E s s1 wc Hm) as [Hw Hf].
  destruct (tempfile_mkdtemp_isdir _ _ _ _ _ Hm) as [Hd Hne].
  assert (Hdir : Os.isdir (fs s2) wc = true).
  { unfold s2. by rewrite Hf. }
  split; [done|].
  destruct (cleanup_removes_working_copy L Svn s2 wc) as (Ho & Hrm & _); try done.
  split; [done|]. by apply Hrm.
Qed.

Lemma Svn_cleanup_removes_tmpdir_witness :
  Os.isdir (fs svn_repo2) "/tmp/svn-wc-x1" = true
  ∧ outcome (cleanup strict Svn) svn_repo2 = Ret ()
  ∧ Os.isdir (fs (state_of (cleanup strict Svn) svn_repo2)) "/tmp/svn-wc-x1" = false.
Proof.
  apply (Svn_cleanup_removes_tmpdir strict env_ok svn_repo1
           (state_of (tempfile_mkdtemp env_ok "svn-wc-") svn_repo1) "/tmp/svn-wc-x1").
  reflexivity.
Defined.

(** ** [SvnRepository]: records and commits *)

(** X21.  [commit] of the svn class makes one call, [checkin] of the
    working copy with the message that the git class uses; a [ClientError]
    goes to [log.exception], any other exception is raised as it is. *)
Theorem Svn_commit_checkin L E s wc msg :
  pysvn_bound E = true →
  self_client s = Some SvnClient →
  self_wc s = Some wc →
  let s' := state_of (SvnRepository_commit L E msg) s in
  trace s' = trace s ++ [SvnCheckin wc (completemsg E msg)]
  ∧ outcome (SvnRepository_commit L E msg) s
    = match svn_checkin E wc (completemsg E msg) with
      | Ret _ => Ret ()
      | Raise e =>
          if isinstance e ClientError
          then exception_outcome L
                 (Py.fmt "Commit from working copy %s (msg: %s) failed: %s"
                         [wc; str_opt msg; str_exn e])
          else Raise e
      end.
Proof.
  intros Hb Hc Hw s'. unfold s', outcome, state_of, SvnRepository_commit,
    exception_outcome.
  unfold svn_call_checkin, svn_client, log_exception.
  munfold. mcbn. rewrite Hc, Hw, Hb. mcbn.
  destruct (svn_checkin E wc (completemsg E msg)) as [[]|e]; mcbn; [done|].
  rewrite orb_false_r. destruct (isinstance e ClientError); mcbn; [|done].
  by destruct (exception_raises L).
Qed.

Lemma Svn_commit_checkin_witness :
  trace (state_of (SvnRepository_commit strict env_ok (Some "gcc 4.8")) svn_repo2)
  = trace svn_repo2
    ++ [SvnCheckin "/tmp/svn-wc-x1" (completemsg env_ok (Some "gcc 4.8"))]
  ∧ outcome (SvnRepository_commit strict env_ok (Some "gcc 4.8")) svn_repo2 = Ret ().
Proof.
  destruct (Svn_commit_checkin strict env_ok svn_repo2 "/tmp/svn-wc-x1" (Some "gcc 4.8"))
    as (H1 & H3); [reflexivity ..|].
  split; [exact H1|exact H3].
Defined.

(** X22.  With no client bound, [add_easyconfig] of the svn class writes
    the record and then raises [AttributeError]: the debug statement calls
    [self.client.status] before the test [self.client and ...] is
    reached. *)
Theorem Svn_add_easyconfig_no_client L E Stats sts s s1 cfg name version stats append dest :
  FileRepository_add_easyconfig L E Stats sts cfg name version stats append s
    = (s1, Ret dest) →
  self_client s = None →
  let m := SvnRepository_add_easyconfig L E Stats sts cfg name version stats append in
  outcome m s = Raise (Exn AttributeError "object has no such attribute")
  ∧ fs (state_of m s) = fs s1
  ∧ trace (state_of m s) = trace s.
Proof.
  intros H Hc m.
  pose proof (File_add_easyconfig_frame _ _ _ _ _ _ _ _ _ _ _ _ H)
    as (_ & _ & _ & Hcl & _ & Htr).
  assert (Hd : dest ≠ "").
  { apply File_add_easyconfig_returned in H as (fp & _ & _ & _ & -> & _).
    rewrite <-fmt_eb. apply dest_nonempty. }
  unfold m, outcome, state_of, SvnRepository_add_easyconfig.
  unfold svn_call_status, svn_client, log_debug. munfold. rewrite H. mcbn.
  rewrite (bool_decide_eq_false_2 _ Hd). mcbn. rewrite Hcl, Hc. by mcbn.
Qed.

Lemma Svn_add_easyconfig_no_client_witness :
  outcome (SvnRepository_add_easyconfig strict env_ok string id "/src/gcc.eb" "gcc"
             "4.8" "{'time': 120}" false) file_repo1
  = Raise (Exn AttributeError "object has no such attribute").
Proof.
  apply (Svn_add_easyconfig_no_client strict env_ok string id file_repo1 file_repo2
           "/src/gcc.eb" "gcc" "4.8" "{'time': 120}" false "/tmp/repo/gcc/4.8.eb");
    reflexivity.
Defined.
